(** * Task storage: the in-memory store of [task_storage/memory.py]

    A shallow embedding of [InMemoryTaskStorage] and of the factory
    [get_task_storage].  Python objects live in a heap and are passed by
    reference, the way the store keeps the caller's task records; the
    store's own two-level mapping is private to it and is kept beside the
    heap.  Every method is a computation in a state-and-exception monad. *)

From Stdlib Require Import ZArith String Ascii List Sorted Permutation Lia.
From Stdlib Require Import Zify ZifyNat.
From Stdlib Require Import OrderedTypeEx.
From stdpp Require Import base list strings sorting.

Local Open Scope string_scope.
Local Open Scope list_scope.
Local Open Scope Z_scope.

#[local] Arguments String.eqb : simpl never.
#[local] Arguments String.append : simpl never.

(** ** Python values and objects *)

Abbreviation loc := nat (only parsing).

(** Immediate values and references to heap objects. *)
Inductive value :=
  | VNone
  | VBool (b : bool)
  | VInt (z : Z)
  | VStr (s : string)
  | VRef (l : loc).

(** A [dict] keeps its items in insertion order, as Python's does. *)
Definition dict := list (string * value).

(** Heap objects: dicts, lists, and objects the store never looks into
    (an agent instance, say). *)
Inductive obj :=
  | ODict (d : dict)
  | OList (l : list value)
  | OOpaque (tag : nat).

Abbreviation heap_t := (list obj) (only parsing).

(** ** Dictionaries in insertion order *)

Module Dict.
Section ops.
Context {V : Type}.
Implicit Types (k : string) (d : list (string * V)).

(** [d.get(k)] *)
Fixpoint lookup k d : option V :=
  match d with
  | [] => None
  | (k', v) :: d' => if String.eqb k' k then Some v else lookup k d'
  end.

(** [k in d] *)
Definition mem k d : bool :=
  match lookup k d with Some _ => true | None => false end.

(** [d[k] = v]: an existing key keeps its place, a new one goes last. *)
Fixpoint set k (v : V) d : list (string * V) :=
  match d with
  | [] => [(k, v)]
  | (k', v') :: d' =>
      if String.eqb k' k then (k', v) :: d' else (k', v') :: set k v d'
  end.

(** In-place change of the value under [k]. *)
Fixpoint alter (f : V -> V) k d : list (string * V) :=
  match d with
  | [] => []
  | (k', v') :: d' =>
      if String.eqb k' k then (k', f v') :: d' else (k', v') :: alter f k d'
  end.

(** [del d[k]] *)
Fixpoint remove k d : list (string * V) :=
  match d with
  | [] => []
  | (k', v') :: d' =>
      if String.eqb k' k then d' else (k', v') :: remove k d'
  end.

(** [d.update(d2)] *)
Definition update d d2 : list (string * V) :=
  fold_left (fun acc kv => set kv.1 kv.2 acc) d2 d.

Definition keys d : list string := map fst d.
End ops.
End Dict.

(** ** Exceptions, results and the monad of the methods *)

Inductive exn :=
  | KeyError (msg : string)
  | ValueError (msg : string)
  | AttributeError
  | TypeError.

Inductive result (A : Type) :=
  | Ok (a : A)
  | Raise (e : exn).
Arguments Ok {A} a.
Arguments Raise {A} e.

#[global] Instance result_ret : MRet result := fun A a => Ok a.
#[global] Instance result_bind : MBind result := fun A B f m =>
  match m with Ok a => f a | Raise e => Raise e end.

(** The store: user_id -> task_id -> task record (a reference, normally). *)
Definition store := list (string * list (string * value)).

Record state := mkState {
  _tasks : store;
  heap : heap_t
}.

(** A method call runs from a state to a result and the state it leaves;
    a raised exception keeps whatever was written before it. *)
Definition M (A : Type) : Type := state -> result A * state.

#[global] Instance M_ret : MRet M := fun A a s => (Ok a, s).
#[global] Instance M_bind : MBind M := fun A B f m s =>
  match m s with
  | (Ok a, s') => f a s'
  | (Raise e, s') => (Raise e, s')
  end.

Definition raise {A} (e : exn) : M A := fun s => (Raise e, s).
Definition get_tasks : M store := fun s => (Ok (_tasks s), s).
Definition put_tasks (t : store) : M unit :=
  fun s => (Ok tt, mkState t (heap s)).
Definition get_heap : M heap_t := fun s => (Ok (heap s), s).
Definition put_heap (h : heap_t) : M unit :=
  fun s => (Ok tt, mkState (_tasks s) h).
Definition lift {A} (r : result A) : M A := fun s => (r, s).

(** Allocation of a new object: the next free location. *)
Definition alloc (o : obj) : M loc :=
  h ← get_heap; _ ← put_heap (h ++ [o]); mret (length h).

(** In-place write to an allocated object. *)
Definition store_obj (l : loc) (o : obj) : M unit :=
  h ← get_heap; put_heap (<[l:=o]> h).

(** The object a value refers to, if it is a reference. *)
Definition deref (h : heap_t) (v : value) : option obj :=
  match v with VRef l => h !! l | _ => None end.

(** The dict behind a value; anything else has no dict methods. *)
Definition as_dict (e : exn) (v : value) : M (loc * dict) :=
  h ← get_heap;
  match v with
  | VRef l => match h !! l with
              | Some (ODict d) => mret (l, d)
              | _ => raise e
              end
  | _ => raise e
  end.

(** [v.get(k, default)] *)
Definition dict_get (v : value) (k : string) (dflt : value) : M value :=
  '(_, d) ← as_dict AttributeError v;
  mret (default dflt (Dict.lookup k d)).

(** [v[k]] on a dict object. *)
Definition getitem (v : value) (k : string) : M value :=
  '(_, d) ← as_dict TypeError v;
  match Dict.lookup k d with
  | Some x => mret x
  | None => raise (KeyError k)
  end.

(** [v[k] = x] on a dict object: the object is changed where it lives. *)
Definition setitem (v : value) (k : string) (x : value) : M unit :=
  '(l, d) ← as_dict TypeError v;
  store_obj l (ODict (Dict.set k x d)).

(** [v.append(x)] on a list object. *)
Definition list_append (v : value) (x : value) : M unit :=
  h ← get_heap;
  match v with
  | VRef m => match h !! m with
              | Some (OList xs) => store_obj m (OList (xs ++ [x]))
              | _ => raise AttributeError
              end
  | _ => raise AttributeError
  end.

(** ** Ordering of sort keys and [sorted]

    [a < b] is defined between two strings (by code point, which on the
    UTF-8 bytes of [string] is the byte order) and between two numbers;
    Python raises [TypeError] for [None], for dicts, for plain objects and
    across the kinds.  Between two list objects Python compares element by
    element; that order is outside this model, which raises there as well,
    so what is stated about the sort is stated for keys that are no list
    objects. *)

Definition as_int (v : value) : option Z :=
  match v with
  | VInt z => Some z
  | VBool b => Some (if b then 1 else 0)
  | _ => None
  end.

Definition py_lt (a b : value) : result bool :=
  match a, b with
  | VStr x, VStr y => Ok (String.ltb x y)
  | _, _ =>
      match as_int a, as_int b with
      | Some x, Some y => Ok (x <? y)
      | _, _ => Raise TypeError
      end
  end.

Section sorting.
Context {A : Type}.

(** Insertion of [x], which came before every element of [l], into the
    ascending [l]: it stays in front of the keys it is not greater than. *)
Fixpoint insert_asc (x : value * A) (l : list (value * A))
  : result (list (value * A)) :=
  match l with
  | [] => Ok [x]
  | y :: l' =>
      b ← py_lt y.1 x.1;
      if b : bool then (r ← insert_asc x l'; Ok (y :: r)) else Ok (x :: l)
  end.

(** Stable ascending sort of key-decorated items. *)
Fixpoint sort_asc (l : list (value * A)) : result (list (value * A)) :=
  match l with
  | [] => Ok []
  | x :: l' => r ← sort_asc l'; insert_asc x r
  end.

(** [sorted(items, key=..., reverse=...)] on decorated items: with
    [reverse] the list is reversed, sorted stably and reversed again. *)
Definition sorted_ (reverse : bool) (l : list (value * A))
  : result (list A) :=
  if reverse
  then r ← sort_asc (rev l); Ok (map snd (rev r))
  else r ← sort_asc l; Ok (map snd r).
End sorting.

(** [l[start:stop]] with Python's treatment of negative and overlong
    bounds. *)
Definition clamp_index (n i : Z) : Z :=
  if i <? 0 then Z.max (i + n) 0 else Z.min i n.

Definition py_slice {A} (start stop : Z) (l : list A) : list A :=
  let n := Z.of_nat (length l) in
  let lo := clamp_index n start in
  let hi := clamp_index n stop in
  take (Z.to_nat (hi - lo)) (drop (Z.to_nat lo) l).

(** ** The clock

    [datetime.now(UTC)] is a reading of the wall clock; the reading is an
    argument of the method that takes it. *)
Record datetime := mkDatetime {
  year : nat; month : nat; day : nat;
  hour : nat; minute : nat; second : nat; microsecond : nat
}.

Definition digit (n : nat) : ascii :=
  ascii_of_nat (48 + n mod 10).

(** The last [w] decimal digits of [n], zero-padded. *)
Fixpoint dec_pad (w n : nat) : string :=
  match w with
  | O => ""
  | S w' => dec_pad w' (n / 10) +:+ String (digit n) ""
  end.

(** [dt.isoformat()] of a datetime aware of UTC: the fraction is printed
    only when it is not zero, the offset always. *)
Definition isoformat (dt : datetime) : string :=
  dec_pad 4 (year dt) +:+ "-" +:+ dec_pad 2 (month dt) +:+ "-"
  +:+ dec_pad 2 (day dt) +:+ "T" +:+ dec_pad 2 (hour dt) +:+ ":"
  +:+ dec_pad 2 (minute dt) +:+ ":" +:+ dec_pad 2 (second dt)
  +:+ (if Nat.eqb (microsecond dt) 0 then ""
       else "." +:+ dec_pad 6 (microsecond dt))
  +:+ "+00:00".

(** ** ISO 8601

    What [finished_at] is measured against: the extended format of a date
    and time, [YYYY-MM-DDThh:mm:ss], then an optional fraction of a second,
    then at most one zone designator, [Z] or an offset [+hh:mm] or [-hh:mm].
    In a template the letter d stands for a decimal digit and every other
    character for itself. *)
Definition is_digit (c : ascii) : bool :=
  (48 <=? nat_of_ascii c)%nat && (nat_of_ascii c <=? 57)%nat.

Fixpoint match_template (tpl l : list ascii) : option (list ascii) :=
  match tpl, l with
  | [], _ => Some l
  | _ :: _, [] => None
  | t :: tpl', c :: l' =>
      if (if Ascii.eqb t "d" then is_digit c else Ascii.eqb t c)
      then match_template tpl' l' else None
  end.

Definition is_designator (l : list ascii) : bool :=
  match l with
  | [] => true
  | [c] => Ascii.eqb c "Z"
  | sg :: rest =>
      (Ascii.eqb sg "+" || Ascii.eqb sg "-")
      && match match_template (list_ascii_of_string "dd:dd") rest with
         | Some [] => true
         | _ => false
         end
  end.

Fixpoint fraction_then_designator (l : list ascii) : bool :=
  match l with
  | [] => false
  | c :: l' =>
      is_digit c
      && match l' with
         | [] => true
         | c' :: _ =>
             if is_digit c' then fraction_then_designator l'
             else is_designator l'
         end
  end.

Definition is_iso8601 (s : string) : bool :=
  match match_template (list_ascii_of_string "dddd-dd-ddTdd:dd:dd")
                       (list_ascii_of_string s) with
  | Some ("."%char :: frac) => fraction_then_designator frac
  | Some rest => is_designator rest
  | None => false
  end.

(** Reading a timestamp back: the fields at their columns, the fraction
    taken as six digits of microseconds when there is one. *)
Definition digit_val (c : ascii) : nat := nat_of_ascii c - 48.

Definition number (l : list ascii) : nat :=
  fold_left (fun acc c => 10 * acc + digit_val c)%nat l 0%nat.

Definition read_iso (s : string) : option datetime :=
  let l := list_ascii_of_string s in
  let field i n := number (take n (drop i l)) in
  if is_iso8601 s then
    Some (mkDatetime (field 0 4) (field 5 2) (field 8 2) (field 11 2)
            (field 14 2) (field 17 2)
            (match drop 19 l with
             | "."%char :: _ => field 20 6
             | _ => 0
             end))%nat
  else None.

(** The readings a [datetime] can hold (days are not checked against the
    month). *)
Definition in_range (dt : datetime) : bool :=
  (1 <=? Z.of_nat (year dt))%Z && (Z.of_nat (year dt) <=? 9999)%Z
  && (1 <=? month dt)%nat && (month dt <=? 12)%nat
  && (1 <=? day dt)%nat && (day dt <=? 31)%nat
  && (hour dt <? 24)%nat && (minute dt <? 60)%nat && (second dt <? 60)%nat
  && (Z.of_nat (microsecond dt) <? 1000000)%Z.

(** The stamp as the specification words it: the UTC reading in ISO 8601
    with the literal suffix Z, and no offset beside it.  It is what
    [mark_task_finished] is compared with, not what it computes. *)
Definition utc_z_stamp (dt : datetime) : string :=
  dec_pad 4 (year dt) +:+ "-" +:+ dec_pad 2 (month dt) +:+ "-"
  +:+ dec_pad 2 (day dt) +:+ "T" +:+ dec_pad 2 (hour dt) +:+ ":"
  +:+ dec_pad 2 (minute dt) +:+ ":" +:+ dec_pad 2 (second dt)
  +:+ (if Nat.eqb (microsecond dt) 0 then ""
       else "." +:+ dec_pad 6 (microsecond dt))
  +:+ "Z".

(** ** task_storage/base.py *)

Definition DEFAULT_USER_ID : string := "default".

(** ** task_storage/memory.py: InMemoryTaskStorage

    Every argument is passed explicitly; where the source gives a default
    it is [DEFAULT_USER_ID] for [user_id], "finished" for [status], 1 and
    100 for [page] and [per_page].  An argument annotated [Dict] is a
    reference to a dict object: given anything else a method raises where
    Python's attribute and item protocols do, and [update_task] is taken to
    raise [TypeError] on an [update_data] that is not a dict.  Of the log
    line of [add_task_step] only the [.get] it evaluates is kept. *)

(** [__init__]: no user, no task. *)
Definition InMemoryTaskStorage : store := [].

(** The message of the not-found error. *)
Definition not_found (task_id user_id : string) : exn :=
  KeyError ("Task " +:+ task_id +:+ " not found for user " +:+ user_id).

(** [self._tasks[user_id][task_id]] *)
Definition task_ref (task_id user_id : string) : M value :=
  ts ← get_tasks;
  match Dict.lookup user_id ts with
  | None => raise (KeyError user_id)
  | Some user_tasks =>
      match Dict.lookup task_id user_tasks with
      | None => raise (KeyError task_id)
      | Some task => mret task
      end
  end.

Definition create_task (task_id : string) (task_data : value)
    (user_id : string) : M unit :=
  ts ← get_tasks;
  _ ← (if Dict.mem user_id ts then mret tt
       else put_tasks (Dict.set user_id [] ts));
  ts ← get_tasks;
  put_tasks (Dict.alter (Dict.set task_id task_data) user_id ts).

Definition task_exists (task_id user_id : string) : M bool :=
  ts ← get_tasks;
  mret (match Dict.lookup user_id ts with
        | Some user_tasks => Dict.mem task_id user_tasks
        | None => false
        end).

Definition get_task (task_id user_id : string) : M (option dict) :=
  ts ← get_tasks;
  match Dict.lookup user_id ts with
  | None => mret None
  | Some user_tasks =>
      match Dict.lookup task_id user_tasks with
      | None => mret None
      | Some task_data =>
          '(_, items) ← as_dict AttributeError task_data;
          mret (Some (List.filter
                        (fun kv => negb (String.eqb kv.1 "agent")) items))
      end
  end.

Definition update_task (task_id : string) (update_data : value)
    (user_id : string) : M unit :=
  e ← task_exists task_id user_id;
  if negb e then raise (not_found task_id user_id) else
  task ← task_ref task_id user_id;
  '(l, d) ← as_dict AttributeError task;
  '(_, d2) ← as_dict TypeError update_data;
  store_obj l (ODict (Dict.update d d2)).

Definition delete_task (task_id user_id : string) : M bool :=
  e ← task_exists task_id user_id;
  if negb e then mret false else
  ts ← get_tasks;
  _ ← put_tasks (Dict.alter (Dict.remove task_id) user_id ts);
  mret true.

(** The dict [list_tasks] returns. *)
Record task_page := mkPage {
  tasks : list dict;
  total : nat;
  page : Z;
  per_page : Z
}.

Definition task_summary (x : string * value) : M dict :=
  let '(task_id, task_data) := x in
  status ← dict_get task_data "status" (VStr "unknown");
  task ← dict_get task_data "task" (VStr "");
  created_at ← dict_get task_data "created_at" (VStr "");
  finished_at ← dict_get task_data "finished_at" VNone;
  live_url ← dict_get task_data "live_url" (VStr ("/live/" +:+ task_id));
  mret [("id", VStr task_id); ("status", status); ("task", task);
        ("created_at", created_at); ("finished_at", finished_at);
        ("live_url", live_url)].

(** The sort key of an item, computed for every item before sorting. *)
Definition created_at_key (x : string * value)
    : M (value * (string * value)) :=
  k ← dict_get x.2 "created_at" (VStr ""); mret (k, x).

Definition list_tasks (user_id : string) (page per_page : Z)
    : M task_page :=
  ts ← get_tasks;
  match Dict.lookup user_id ts with
  | None => mret (mkPage [] 0 page per_page)
  | Some user_tasks =>
      keyed ← mapM created_at_key user_tasks;
      sorted_tasks ← lift (sorted_ true keyed);
      let start_idx := (page - 1) * per_page in
      let end_idx := start_idx + per_page in
      let paginated_tasks := py_slice start_idx end_idx sorted_tasks in
      task_list ← mapM task_summary paginated_tasks;
      mret (mkPage task_list (length user_tasks) page per_page)
  end.

Definition update_task_status (task_id status user_id : string) : M unit :=
  e ← task_exists task_id user_id;
  if negb e then raise (not_found task_id user_id) else
  task ← task_ref task_id user_id;
  setitem task "status" (VStr status).

(** The list under [field] is created on first use, then appended to. *)
Definition append_to_field (field : string) (task x : value) : M unit :=
  '(_, d) ← as_dict TypeError task;
  _ ← (if Dict.mem field d then mret tt
       else (n ← alloc (OList []); setitem task field (VRef n)));
  xs ← getitem task field;
  list_append xs x.

Definition add_task_step (task_id : string) (step_data : value)
    (user_id : string) : M unit :=
  e ← task_exists task_id user_id;
  if negb e then raise (not_found task_id user_id) else
  task ← task_ref task_id user_id;
  _ ← append_to_field "steps" task step_data;
  _ ← dict_get step_data "step" VNone;
  mret tt.

Definition add_task_media (task_id : string) (media_data : value)
    (user_id : string) : M unit :=
  e ← task_exists task_id user_id;
  if negb e then raise (not_found task_id user_id) else
  task ← task_ref task_id user_id;
  append_to_field "media" task media_data.

Definition get_task_agent (task_id user_id : string) : M value :=
  e ← task_exists task_id user_id;
  if negb e then mret VNone else
  task ← task_ref task_id user_id;
  dict_get task "agent" VNone.

Definition set_task_agent (task_id : string) (agent : value)
    (user_id : string) : M unit :=
  e ← task_exists task_id user_id;
  if negb e then raise (not_found task_id user_id) else
  task ← task_ref task_id user_id;
  setitem task "agent" agent.

Definition set_task_output (task_id output user_id : string) : M unit :=
  e ← task_exists task_id user_id;
  if negb e then raise (not_found task_id user_id) else
  task ← task_ref task_id user_id;
  setitem task "output" (VStr output).

Definition set_task_error (task_id error user_id : string) : M unit :=
  e ← task_exists task_id user_id;
  if negb e then raise (not_found task_id user_id) else
  task ← task_ref task_id user_id;
  setitem task "error" (VStr error).

(** [now] is what [datetime.now(UTC)] reads after the status is set. *)
Definition mark_task_finished (task_id user_id status : string)
    (now : datetime) : M unit :=
  e ← task_exists task_id user_id;
  if negb e then raise (not_found task_id user_id) else
  task ← task_ref task_id user_id;
  _ ← setitem task "status" (VStr status);
  setitem task "finished_at" (VStr (isoformat now +:+ "Z")).

(** ** task_storage/__init__.py

    [storage_type] names a kind of storage; it is a string. *)

Definition get_task_storage (storage_type : string) : result store :=
  if String.eqb storage_type "memory"
  then Ok InMemoryTaskStorage
  else Raise (ValueError ("Unknown storage type: " +:+ storage_type)).

(** ** Callers' views used in the statements *)

(** The eight mutators, each with its own arguments. *)
Inductive mutation :=
  | Update (update_data : value)
  | SetStatus (status : string)
  | AddStep (step_data : value)
  | AddMedia (media_data : value)
  | SetAgent (agent : value)
  | SetOutput (output : string)
  | SetError (error : string)
  | MarkFinished (status : string) (now : datetime).

Definition mutate (m : mutation) (task_id user_id : string) : M unit :=
  match m with
  | Update update_data => update_task task_id update_data user_id
  | SetStatus status => update_task_status task_id status user_id
  | AddStep step_data => add_task_step task_id step_data user_id
  | AddMedia media_data => add_task_media task_id media_data user_id
  | SetAgent agent => set_task_agent task_id agent user_id
  | SetOutput output => set_task_output task_id output user_id
  | SetError error => set_task_error task_id error user_id
  | MarkFinished status now => mark_task_finished task_id user_id status now
  end.

(** The record stored under (user_id, task_id), if the pair exists. *)
Definition record_of (ts : store) (task_id user_id : string) : option value :=
  match Dict.lookup user_id ts with
  | Some user_tasks => Dict.lookup task_id user_tasks
  | None => None
  end.

(** The test of [get_task]'s comprehension: [k != "agent"]. *)
Definition not_agent (kv : string * value) : bool :=
  negb (String.eqb kv.1 "agent").

(** State-preserving computations. *)
Definition pure_M {A} (m : M A) : Prop := forall s, (m s).2 = s.

(** A heap and stores for the worked examples: a record with an agent,
    the agent, three records created one day apart, two step payloads. *)
Definition ex_heap : heap_t :=
  [ODict [("status", VStr "created"); ("agent", VRef 1%nat);
          ("created_at", VStr "2024-01-01T00:00:00Z")];
   OOpaque 7;
   ODict [("created_at", VStr "2024-01-02T00:00:00Z")];
   ODict [("created_at", VStr "2024-01-03T00:00:00Z")];
   ODict [("step", VInt 1)];
   ODict [("step", VInt 2)]].

Definition ex_empty : state := mkState InMemoryTaskStorage ex_heap.

(** Three tasks of user "u", created in the order of their timestamps. *)
Definition ex_three : state :=
  (create_task "t3" (VRef 3%nat) "u"
     (create_task "t2" (VRef 2%nat) "u"
        (create_task "t1" (VRef 0%nat) "u" ex_empty).2).2).2.

(** The default of [get_task_storage]'s [storage_type]. *)
Definition storage_type_default : string := "memory".

(** The last character of a string. *)
Fixpoint last_char (s : string) : option ascii :=
  match s with
  | EmptyString => None
  | String c EmptyString => Some c
  | String _ s' => last_char s'
  end.

(** A reading of the clock for the examples. *)
Definition ex_now : datetime := mkDatetime 2024 1 2 3 4 5 6.


(** [get_task(task_id, user_id)["steps"]], read as a list. *)
Definition steps_seen (task_id user_id : string) (s : state)
    : option (list value) :=
  match get_task task_id user_id s with
  | (Ok (Some r), s') =>
      match Dict.lookup "steps" r with
      | Some v =>
          match deref (heap s') v with
          | Some (OList xs) => Some xs
          | _ => None
          end
      | None => None
      end
  | _ => None
  end.

(** References to dict objects: what a [Dict] argument is. *)
Definition is_dict_ref (h : heap_t) (v : value) : bool :=
  match deref h v with Some (ODict _) => true | _ => false end.

(** A task of user "u" that has one step already. *)
Definition ex_stepped : state :=
  (add_task_step "t1" (VRef 4%nat) "u" ex_three).2.

(** A call of any method of the store, by the user who makes it. *)
Inductive call :=
  | CreateTask (task_id : string) (task_data : value)
  | GetTask (task_id : string)
  | DeleteTask (task_id : string)
  | ListTasks (page per_page : Z)
  | TaskExists (task_id : string)
  | GetTaskAgent (task_id : string)
  | Mutate (task_id : string) (m : mutation).

(** The state a call leaves, whatever it returns or raises. *)
Definition state_after (c : call) (user_id : string) (s : state) : state :=
  match c with
  | CreateTask task_id task_data => (create_task task_id task_data user_id s).2
  | GetTask task_id => (get_task task_id user_id s).2
  | DeleteTask task_id => (delete_task task_id user_id s).2
  | ListTasks page per_page => (list_tasks user_id page per_page s).2
  | TaskExists task_id => (task_exists task_id user_id s).2
  | GetTaskAgent task_id => (get_task_agent task_id user_id s).2
  | Mutate task_id m => (mutate m task_id user_id s).2
  end.

(** The location a reference points to. *)
Definition locs_of (v : value) : list loc :=
  match v with VRef l => [l] | _ => [] end.

(** The list object under [field] of the record [task]. *)
Definition field_list (h : heap_t) (task : value) (field : string)
    : list loc :=
  match deref h task with
  | Some (ODict d) =>
      match Dict.lookup field d with Some v => locs_of v | None => [] end
  | _ => []
  end.

(** The objects a call may write to: the record its mutator addresses and,
    for the two appending mutators, the list under the record's field. *)
Definition written (c : call) (user_id : string) (s : state) : list loc :=
  match c with
  | Mutate task_id m =>
      match record_of (_tasks s) task_id user_id with
      | Some task =>
          locs_of task ++
          match m with
          | AddStep _ => field_list (heap s) task "steps"
          | AddMedia _ => field_list (heap s) task "media"
          | _ => []
          end
      | None => []
      end
  | _ => []
  end.

(** [s'] differs from [s] at most in the objects at [F] and in new ones. *)
Definition frame (F : list loc) (s s' : state) : Prop :=
  _tasks s' = _tasks s
  /\ forall l o, heap s !! l = Some o -> ~ In l F -> heap s' !! l = Some o.

(** One record object filed under two users. *)
Definition ex_shared : state :=
  (create_task "t" (VRef 0%nat) "bob"
     (create_task "t" (VRef 0%nat) "alice" ex_empty).2).2.

(** The "created_at" string of an item of a user's namespace, with the
    default of the sort key. *)
Definition created_at_of (h : heap_t) (x : string * value) : string :=
  match deref h x.2 with
  | Some (ODict d) =>
      match Dict.lookup "created_at" d with
      | Some (VStr c) => c
      | _ => ""
      end
  | _ => ""
  end.

(** Items whose record is a dict with "created_at" a string or absent. *)
Definition string_keyed (h : heap_t) (x : string * value) : bool :=
  match deref h x.2 with
  | Some (ODict d) =>
      match Dict.lookup "created_at" d with
      | Some (VStr _) | None => true
      | Some _ => false
      end
  | _ => false
  end.

(** The summary [list_tasks] makes of an item whose record is a dict. *)
Definition summary_at (h : heap_t) (x : string * value) : dict :=
  match deref h x.2 with
  | Some (ODict d) =>
      [("id", VStr x.1);
       ("status", default (VStr "unknown") (Dict.lookup "status" d));
       ("task", default (VStr "") (Dict.lookup "task" d));
       ("created_at", default (VStr "") (Dict.lookup "created_at" d));
       ("finished_at", default VNone (Dict.lookup "finished_at" d));
       ("live_url",
        default (VStr ("/live/" +:+ x.1)) (Dict.lookup "live_url" d))]
  | _ => []
  end.

(** [x] is at least as recent as [y]: its "created_at" is not smaller in
    the lexicographic order of strings. *)
Definition newest_first (h : heap_t) (x y : string * value) : Prop :=
  String.leb (created_at_of h y) (created_at_of h x) = true.

Section plain_sort.
Context {A : Type} (key : A -> string).

(** The order of the keys, on the items. *)
Definition key_le (x y : A) : Prop := String.leb (key x) (key y) = true.

(** An item with its sort key in front. *)
Definition decorate (x : A) : value * A := (VStr (key x), x).

(** [insert_asc] and [sort_asc] on string keys, where no comparison
    fails. *)
Fixpoint ins (x : A) (l : list A) : list A :=
  match l with
  | [] => [x]
  | y :: l' =>
      if String.ltb (key y) (key x) then y :: ins x l' else x :: l
  end.

Fixpoint isort (l : list A) : list A :=
  match l with
  | [] => []
  | x :: l' => ins x (isort l')
  end.
End plain_sort.

(** ** Further views of the store *)

(** The tasks of a user in the order of their creation; none for a user
    the store has not seen.  Its length is the total [list_tasks] gives. *)
Definition namespace (user_id : string) (s : state)
    : list (string * value) :=
  default [] (Dict.lookup user_id (_tasks s)).


(** [add_task_media] called once per descriptor, in the order of the list;
    an exception ends the sequence of calls. *)
Fixpoint add_task_media_all (task_id : string) (media : list value)
    (user_id : string) : M unit :=
  match media with
  | [] => mret tt
  | media_data :: rest =>
      _ ← add_task_media task_id media_data user_id;
      add_task_media_all task_id rest user_id
  end.

(** [get_task(task_id, user_id)[field]], read as a list. *)
Definition list_seen (field task_id user_id : string) (s : state)
    : option (list value) :=
  match get_task task_id user_id s with
  | (Ok (Some r), s') =>
      match Dict.lookup field r with
      | Some v =>
          match deref (heap s') v with
          | Some (OList xs) => Some xs
          | _ => None
          end
      | None => None
      end
  | _ => None
  end.

(** References to list objects. *)
Definition is_list_ref (h : heap_t) (v : value) : bool :=
  match deref h v with Some (OList _) => true | _ => false end.


(** A task whose record has a string under "media". *)
Definition ex_odd_media : state :=
  (create_task "t" (VRef 0%nat) "u"
     (mkState InMemoryTaskStorage [ODict [("media", VStr "none")]])).2.


(** An object after a call, against the object before: a dict keeps its
    keys, a list its entries, in place and in order, in front of any new
    ones; an object of another kind is as it was. *)
Definition obj_grows (o o' : obj) : Prop :=
  match o, o' with
  | ODict d, ODict d' =>
      forall k, Dict.mem k d = true -> Dict.mem k d' = true
  | OList xs, OList xs' => exists ys, xs' = xs ++ ys
  | OOpaque a, OOpaque b => a = b
  | _, _ => False
  end.

(** Every object of [s] is still there in [s'], grown at most. *)
Definition heap_grows (s s' : state) : Prop :=
  forall l o, heap s !! l = Some o ->
    exists o', heap s' !! l = Some o' /\ obj_grows o o'.

(** User ids are distinct, and so are the task ids of each user: what the
    keys of Python dicts are. *)
Definition distinct_ids (ts : store) : Prop :=
  NoDup (Dict.keys ts) /\ Forall (fun ut => NoDup (Dict.keys ut.2)) ts.


(** The summaries [list_tasks] returns for one page; none if it raises. *)
Definition page_tasks (user_id : string) (page per_page : Z) (s : state)
    : list dict :=
  match (list_tasks user_id page per_page s).1 with
  | Ok r => tasks r
  | Raise _ => []
  end.

(** The summaries of pages 1 to [n], one page after the other. *)
Definition pages_upto (user_id : string) (per_page : Z) (n : nat)
    (s : state) : list dict :=
  flat_map (fun p => page_tasks user_id (Z.of_nat p) per_page s) (seq 1 n).

(** The items whose "created_at" string is [c], in the order they have. *)
Definition created_at_is (h : heap_t) (c : string)
    (l : list (string * value)) : list (string * value) :=
  List.filter (fun x => String.eqb (created_at_of h x) c) l.


(** Values that are no mapping: [None], booleans, numbers, strings and
    list objects. *)
Definition not_a_mapping (h : heap_t) (v : value) : bool :=
  match v with
  | VRef l => match h !! l with Some (OList _) => true | _ => false end
  | _ => true
  end.

(** The sort key [list_tasks] computes for an item whose record is a
    dict. *)
Definition sort_key_of (h : heap_t) (x : string * value) : value :=
  match deref h x.2 with
  | Some (ODict d) => default (VStr "") (Dict.lookup "created_at" d)
  | _ => VStr ""
  end.

(** Two tasks of user "u"; the second has [None] under "created_at". *)
Definition ex_none_key : state :=
  (create_task "t2" (VRef 1%nat) "u"
     (create_task "t1" (VRef 0%nat) "u"
        (mkState InMemoryTaskStorage
           [ODict [("created_at", VStr "2024-01-01T00:00:00Z")];
            ODict [("created_at", VNone)]])).2).2.

(** A task of user "u" created with [None] for a record. *)
Definition ex_no_record : state :=
  (create_task "t" VNone "u" ex_three).2.


(** Four tasks of user "u": "a" and "c" have the same "created_at", "b"
    and "d" have none. *)
Definition ex_ties : state :=
  (create_task "d" (VRef 3%nat) "u"
     (create_task "c" (VRef 2%nat) "u"
        (create_task "b" (VRef 1%nat) "u"
           (create_task "a" (VRef 0%nat) "u"
              (mkState InMemoryTaskStorage
                 [ODict [("created_at", VStr "2024-01-01T00:00:00Z")];
                  ODict [("status", VStr "created")];
                  ODict [("created_at", VStr "2024-01-01T00:00:00Z");
                         ("status", VStr "running")];
                  ODict []])).2).2).2).2.




(** ** Ownership of records

    The store keeps the object it is given and copies nothing, so what a
    record's owner is shows in the heap only: as which objects can be
    reached from where. *)

(** The references an object holds. *)
Definition refs_of (o : obj) : list loc :=
  match o with
  | ODict d => flat_map (fun kv => locs_of kv.2) d
  | OList xs => flat_map locs_of xs
  | OOpaque _ => []
  end.

Definition inb (l : loc) (L : list loc) : bool := existsb (Nat.eqb l) L.

(** A region: objects that are allocated and refer to one another only. *)
Definition region (h : heap_t) (L : list loc) : bool :=
  forallb (fun l => match h !! l with
                    | Some o => forallb (fun q => inb q L) (refs_of o)
                    | None => false
                    end) L.

(** The records filed under a user. *)
Definition records_of (user_id : string) (s : state) : list loc :=
  flat_map (fun x => locs_of x.2) (namespace user_id s).

(** The objects the calls of a user write to: the records filed under the
    user and the lists these have under "steps" and "media". *)
Definition user_objects (user_id : string) (s : state) : list loc :=
  flat_map (fun x => locs_of x.2 ++ field_list (heap s) x.2 "steps"
                     ++ field_list (heap s) x.2 "media")
           (namespace user_id s).

(** The records of user [b], with all they refer to, are the region [L],
    and no object of [L] is one that the calls of user [a] write to. *)
Definition owned_apart (a b : string) (L : list loc) (s : state) : bool :=
  forallb (fun l => inb l L) (records_of b s)
  && region (heap s) L
  && forallb (fun l => negb (inb l (user_objects a s))) L.

(** A value with what it refers to, [k] references deep: what a caller
    who holds the value can read of it. *)
#[local] Unset Elimination Schemes.
#[local] Set Elimination Schemes.



(** * Properties *)

#[local] Arguments sorted_ : simpl never.
#[local] Arguments py_slice : simpl never.
#[local] Arguments isoformat : simpl never.

(** ** Dictionaries: lookups after writes *)

Section dict_facts.
Context {V : Type}.
Implicit Types (k : string) (d : list (string * V)).

Lemma lookup_set_eq k v d : Dict.lookup k (Dict.set k v d) = Some v.
Proof.
  induction d as [|[k' v'] d IH]; simpl.
  - by rewrite String.eqb_refl.
  - destruct (String.eqb k' k) eqn:E; simpl; rewrite E; auto.
Qed.

Lemma lookup_set_ne k k' v d :
  k <> k' -> Dict.lookup k' (Dict.set k v d) = Dict.lookup k' d.
Proof.
  intros Hne. induction d as [|[k0 v0] d IH]; simpl.
  - by apply String.eqb_neq in Hne as ->.
  - destruct (String.eqb_spec k0 k) as [->|Hk]; simpl.
    + by apply String.eqb_neq in Hne as ->.
    + by rewrite IH.
Qed.

Lemma lookup_alter_eq f k d :
  Dict.lookup k (Dict.alter f k d) = f <$> Dict.lookup k d.
Proof.
  induction d as [|[k' v'] d IH]; simpl; [done|].
  destruct (String.eqb k' k) eqn:E; simpl; rewrite E; auto.
Qed.

Lemma lookup_alter_ne f k k' d :
  k <> k' -> Dict.lookup k' (Dict.alter f k d) = Dict.lookup k' d.
Proof.
  intros Hne. induction d as [|[k0 v0] d IH]; simpl; [done|].
  destruct (String.eqb_spec k0 k) as [->|Hk]; simpl.
  - by apply String.eqb_neq in Hne as ->.
  - by rewrite IH.
Qed.

Lemma mem_lookup k d : Dict.mem k d = true <-> is_Some (Dict.lookup k d).
Proof.
  unfold Dict.mem. destruct (Dict.lookup k d); split; intros H;
    try done; by destruct H.
Qed.

Lemma mem_false k d : Dict.mem k d = false <-> Dict.lookup k d = None.
Proof. unfold Dict.mem. by destruct (Dict.lookup k d). Qed.
End dict_facts.

Lemma lookup_filter_agent k (d : dict) :
  Dict.lookup k (List.filter not_agent d)
  = if String.eqb k "agent" then None else Dict.lookup k d.
Proof.
  induction d as [|[k' v'] d IH]; simpl.
  - by destruct (String.eqb k "agent").
  - unfold not_agent at 1; simpl.
    destruct (String.eqb_spec k' "agent") as [->|Hk]; simpl.
    + rewrite IH. destruct (String.eqb_spec k "agent") as [->|Hk']; [done|].
      destruct (String.eqb_spec "agent" k) as [<-|_]; done.
    + rewrite IH. destruct (String.eqb_spec k' k) as [->|Hk'']; [|done].
      by apply String.eqb_neq in Hk as ->.
Qed.

(** ** Running the monad *)

Lemma bind_run {A B} (m : M A) (f : A -> M B) s :
  (m ≫= f) s
  = match m s with (Ok a, s') => f a s' | (Raise e, s') => (Raise e, s') end.
Proof. reflexivity. Qed.

Lemma task_exists_run task_id user_id s :
  task_exists task_id user_id s
  = (Ok (match record_of (_tasks s) task_id user_id with
         | Some _ => true
         | None => false
         end), s).
Proof.
  unfold task_exists, record_of. rewrite bind_run. simpl.
  unfold mret, M_ret, Dict.mem.
  by destruct (Dict.lookup user_id (_tasks s)).
Qed.

Lemma task_ref_run task_id user_id s v :
  record_of (_tasks s) task_id user_id = Some v ->
  task_ref task_id user_id s = (Ok v, s).
Proof.
  unfold task_ref, record_of. rewrite bind_run. simpl.
  destruct (Dict.lookup user_id (_tasks s)) as [ud|]; [|done].
  by intros ->.
Qed.

Lemma as_dict_run e l d s :
  heap s !! l = Some (ODict d) -> as_dict e (VRef l) s = (Ok (l, d), s).
Proof. intros H. unfold as_dict. rewrite bind_run. simpl. by rewrite H. Qed.

(** A mutator called on a pair that does not exist stops at its guard. *)
Lemma mutate_not_found m task_id user_id s :
  record_of (_tasks s) task_id user_id = None ->
  mutate m task_id user_id s = (Raise (not_found task_id user_id), s).
Proof.
  intros H.
  destruct m; simpl;
    unfold update_task, update_task_status, add_task_step, add_task_media,
      set_task_agent, set_task_output, set_task_error, mark_task_finished;
    rewrite bind_run, task_exists_run, H; reflexivity.
Qed.

Lemma task_exists_false task_id user_id s :
  task_exists task_id user_id s = (Ok false, s) ->
  record_of (_tasks s) task_id user_id = None.
Proof.
  rewrite task_exists_run.
  destruct (record_of (_tasks s) task_id user_id); [discriminate|done].
Qed.

Lemma create_task_run task_id task_data user_id s :
  create_task task_id task_data user_id s
  = (Ok tt,
     mkState (Dict.alter (Dict.set task_id task_data) user_id
                (if Dict.mem user_id (_tasks s) then _tasks s
                 else Dict.set user_id [] (_tasks s)))
             (heap s)).
Proof.
  unfold create_task. rewrite bind_run. simpl.
  by destruct (Dict.mem user_id (_tasks s)).
Qed.

Lemma record_of_create task_id task_data user_id s :
  record_of (_tasks (create_task task_id task_data user_id s).2)
            task_id user_id = Some task_data.
Proof.
  rewrite create_task_run. unfold record_of. simpl.
  rewrite lookup_alter_eq.
  destruct (Dict.mem user_id (_tasks s)) eqn:E.
  - apply mem_lookup in E as [ud ->]. simpl. apply lookup_set_eq.
  - rewrite lookup_set_eq. simpl. by rewrite String.eqb_refl.
Qed.

Lemma get_task_run task_id user_id l d s :
  record_of (_tasks s) task_id user_id = Some (VRef l) ->
  heap s !! l = Some (ODict d) ->
  get_task task_id user_id s = (Ok (Some (List.filter not_agent d)), s).
Proof.
  unfold get_task, record_of. intros Hr Hl. rewrite bind_run. simpl.
  destruct (Dict.lookup user_id (_tasks s)) as [ud|]; [|done].
  rewrite Hr, bind_run, (as_dict_run _ _ d) by done. reflexivity.
Qed.

Lemma filter_agent_keys (d : dict) :
  ~ In "agent" (Dict.keys (List.filter not_agent d)).
Proof.
  unfold Dict.keys. rewrite in_map_iff. intros [[k v] [Hk Hin]].
  apply filter_In in Hin as [_ Hn]. simpl in Hk. subst k.
  by vm_compute in Hn.
Qed.

Lemma filter_agent_absent (d : dict) :
  Dict.lookup "agent" d = None -> List.filter not_agent d = d.
Proof.
  induction d as [|[k v] d IH]; simpl; [done|].
  unfold not_agent at 1. simpl.
  destruct (String.eqb k "agent"); [done|].
  intros H. simpl. by rewrite IH.
Qed.

Lemma pure_ret {A} (a : A) : pure_M (mret a).
Proof. done. Qed.

Lemma pure_raise {A} e : pure_M (@raise A e).
Proof. done. Qed.

Lemma pure_bind {A B} (m : M A) (f : A -> M B) :
  pure_M m -> (forall a, pure_M (f a)) -> pure_M (m ≫= f).
Proof.
  intros Hm Hf s. rewrite bind_run. specialize (Hm s).
  destruct (m s) as [[a|e] s']; simpl in *; subst; [apply Hf|done].
Qed.

Lemma pure_as_dict e v : pure_M (as_dict e v).
Proof.
  intros s. unfold as_dict. rewrite bind_run. simpl.
  destruct v; try done. by destruct (heap s !! l) as [[]|].
Qed.

Lemma pure_dict_get v k dflt : pure_M (dict_get v k dflt).
Proof.
  apply pure_bind; [apply pure_as_dict|]. intros [? ?]. apply pure_ret.
Qed.

Lemma pure_mapM {A B} (f : A -> M B) l :
  (forall x, pure_M (f x)) -> pure_M (mapM f l).
Proof.
  intros Hf. induction l as [|x l IH]; simpl; [apply pure_ret|].
  apply pure_bind; [apply Hf|]. intros y.
  apply pure_bind; [apply IH|]. intros k. apply pure_ret.
Qed.

Lemma pure_task_summary x : pure_M (task_summary x).
Proof.
  destruct x as [task_id task_data]. unfold task_summary.
  repeat (apply pure_bind; [apply pure_dict_get|intros ?]). apply pure_ret.
Qed.

Lemma pure_task_exists task_id user_id : pure_M (task_exists task_id user_id).
Proof. intros s. by rewrite task_exists_run. Qed.

Lemma pure_task_ref task_id user_id : pure_M (task_ref task_id user_id).
Proof.
  intros s. unfold task_ref. rewrite bind_run. simpl.
  destruct (Dict.lookup user_id (_tasks s)) as [ud|]; [|done].
  by destruct (Dict.lookup task_id ud).
Qed.

Lemma pure_get_task task_id user_id : pure_M (get_task task_id user_id).
Proof.
  intros s. unfold get_task. rewrite bind_run. simpl.
  destruct (Dict.lookup user_id (_tasks s)) as [ud|]; [|done].
  destruct (Dict.lookup task_id ud) as [v|]; [|done].
  apply pure_bind; [apply pure_as_dict|]. intros [? ?]. apply pure_ret.
Qed.

Lemma pure_get_task_agent task_id user_id :
  pure_M (get_task_agent task_id user_id).
Proof.
  apply pure_bind; [apply pure_task_exists|]. intros [|]; simpl.
  - apply pure_bind; [apply pure_task_ref|]. intros v. apply pure_dict_get.
  - apply pure_ret.
Qed.

Lemma pure_list_tasks user_id page per_page :
  pure_M (list_tasks user_id page per_page).
Proof.
  intros s. unfold list_tasks. rewrite bind_run. simpl.
  destruct (Dict.lookup user_id (_tasks s)) as [ud|]; [|done].
  apply pure_bind.
  { apply pure_mapM. intros x. apply pure_bind; [apply pure_dict_get|].
    intros ?. apply pure_ret. }
  intros keyed. apply pure_bind; [done|]. intros sorted_tasks.
  apply pure_bind; [apply pure_mapM, pure_task_summary|].
  intros ?. apply pure_ret.
Qed.

Lemma mapM_Forall {A B} (P : B -> Prop) (f : A -> M B) l s r s' :
  (forall x t a t', f x t = (Ok a, t') -> P a) ->
  mapM f l s = (Ok r, s') -> Forall P r.
Proof.
  intros Hf. revert s r s'.
  induction l as [|x l IH]; intros s r s'; simpl.
  - intros [= <- _]. constructor.
  - rewrite bind_run. destruct (f x s) as [[a|e] t] eqn:Hx; [|done].
    rewrite bind_run. destruct (mapM f l t) as [[k|e] t'] eqn:Hl; [|done].
    intros [= <- _]. constructor; eauto.
Qed.

Lemma task_summary_keys x s a s' :
  task_summary x s = (Ok a, s') ->
  Dict.keys a
  = ["id"; "status"; "task"; "created_at"; "finished_at"; "live_url"].
Proof.
  destruct x as [task_id task_data]. unfold task_summary.
  repeat (rewrite bind_run;
          match goal with
          | |- context [dict_get ?v ?k ?d ?t] =>
              destruct (dict_get v k d t) as [[?|?] ?]; [|done]
          end).
  by intros [= <- _].
Qed.

Lemma py_slice_nil {A} start stop : @py_slice A start stop [] = [].
Proof. unfold py_slice. by rewrite drop_nil, take_nil. Qed.

(** ** Mutators on a task that exists *)

Lemma guarded_run {A} task_id user_id (r : M A) (body : value -> M A) v s :
  record_of (_tasks s) task_id user_id = Some v ->
  (e ← task_exists task_id user_id;
   if negb e then r else task ← task_ref task_id user_id; body task) s
  = body v s.
Proof.
  intros H. rewrite bind_run, task_exists_run, H. simpl.
  by rewrite bind_run, (task_ref_run _ _ _ v).
Qed.

Lemma setitem_run l d k x s :
  heap s !! l = Some (ODict d) ->
  setitem (VRef l) k x s
  = (Ok tt, mkState (_tasks s) (<[l:=ODict (Dict.set k x d)]> (heap s))).
Proof.
  intros H. unfold setitem. by rewrite bind_run, (as_dict_run _ _ d).
Qed.

Lemma heap_insert_eq (h : heap_t) l o o' :
  h !! l = Some o -> <[l:=o']> h !! l = Some o'.
Proof. intros H. apply list_lookup_insert_eq. by eapply lookup_lt_Some. Qed.

Lemma last_char_snoc s c : last_char (s +:+ String c "") = Some c.
Proof.
  induction s as [|a s IH]; [done|].
  change (String a s +:+ String c "") with (String a (s +:+ String c "")).
  simpl. rewrite IH. by destruct (s +:+ String c "").
Qed.

(** ** Steps *)

Lemma is_dict_ref_inv h v :
  is_dict_ref h v = true -> exists q dq, v = VRef q /\ h !! q = Some (ODict dq).
Proof.
  unfold is_dict_ref, deref. destruct v as [| | | |q]; try done.
  destruct (h !! q) as [[dq| |]|] eqn:E; try done. eauto.
Qed.

Lemma dict_get_run l d k dflt s :
  heap s !! l = Some (ODict d) ->
  dict_get (VRef l) k dflt s = (Ok (default dflt (Dict.lookup k d)), s).
Proof.
  intros H. unfold dict_get. by rewrite bind_run, (as_dict_run _ _ d).
Qed.

Lemma getitem_run l d k x s :
  heap s !! l = Some (ODict d) -> Dict.lookup k d = Some x ->
  getitem (VRef l) k s = (Ok x, s).
Proof.
  intros H Hk. unfold getitem. by rewrite bind_run, (as_dict_run _ _ d), Hk.
Qed.

Lemma list_append_run m xs x s :
  heap s !! m = Some (OList xs) ->
  list_append (VRef m) x s
  = (Ok tt, mkState (_tasks s) (<[m:=OList (xs ++ [x])]> (heap s))).
Proof. intros H. unfold list_append. rewrite bind_run. simpl. by rewrite H. Qed.

(** Appending to a field that holds a list changes that list only. *)
Lemma append_to_field_present field l d m old x s :
  heap s !! l = Some (ODict d) ->
  Dict.lookup field d = Some (VRef m) ->
  heap s !! m = Some (OList old) ->
  append_to_field field (VRef l) x s
  = (Ok tt, mkState (_tasks s) (<[m:=OList (old ++ [x])]> (heap s))).
Proof.
  intros Hl Hf Hm. unfold append_to_field.
  rewrite bind_run, (as_dict_run _ _ d) by done.
  unfold Dict.mem. rewrite Hf, bind_run. simpl.
  rewrite bind_run, (getitem_run _ d _ (VRef m)) by done.
  by apply list_append_run.
Qed.

(** Appending to a field that is absent makes a new list for it. *)
Lemma append_to_field_absent field l d x s :
  heap s !! l = Some (ODict d) ->
  Dict.lookup field d = None ->
  append_to_field field (VRef l) x s
  = (Ok tt,
     mkState (_tasks s)
       (<[length (heap s):=OList [x]]>
          (<[l:=ODict (Dict.set field (VRef (length (heap s))) d)]>
             (heap s ++ [OList []])))).
Proof.
  intros Hl Hf. unfold append_to_field.
  rewrite bind_run, (as_dict_run _ _ d) by done.
  unfold Dict.mem. rewrite Hf, bind_run.
  assert (Hlt : (l < length (heap s))%nat) by by eapply lookup_lt_Some.
  assert (Hl' : (heap s ++ [OList []]) !! l = Some (ODict d))
    by by rewrite lookup_app_l.
  set (n := length (heap s)).
  set (d' := Dict.set field (VRef n) d).
  assert (Hn : (<[l:=ODict d']> (heap s ++ [OList []])) !! n
               = Some (OList [])).
  { rewrite list_lookup_insert_ne by (subst n; lia).
    subst n. by rewrite lookup_app_r, Nat.sub_diag by lia. }
  rewrite bind_run. unfold alloc at 1. rewrite bind_run. simpl.
  rewrite (setitem_run _ d) by done. simpl.
  rewrite bind_run.
  rewrite (getitem_run _ d' _ (VRef n)); simpl;
    [|by eapply heap_insert_eq|apply lookup_set_eq].
  by rewrite (list_append_run _ []).
Qed.




Lemma steps_seen_run task_id user_id l d m xs s :
  record_of (_tasks s) task_id user_id = Some (VRef l) ->
  heap s !! l = Some (ODict d) ->
  Dict.lookup "steps" d = Some (VRef m) ->
  heap s !! m = Some (OList xs) ->
  steps_seen task_id user_id s = Some xs.
Proof.
  intros Hr Hl Hf Hm. unfold steps_seen.
  rewrite (get_task_run _ _ l d) by done.
  rewrite lookup_filter_agent.
  change (String.eqb "steps" "agent") with false. cbv iota.
  rewrite Hf. simpl. by rewrite Hm.
Qed.

(** What [get_task] found when it returned a record. *)
Lemma get_task_inv task_id user_id s r s' :
  get_task task_id user_id s = (Ok (Some r), s') ->
  exists l d,
    record_of (_tasks s) task_id user_id = Some (VRef l)
    /\ heap s !! l = Some (ODict d)
    /\ r = List.filter not_agent d /\ s' = s.
Proof.
  unfold get_task, record_of. rewrite bind_run. simpl.
  destruct (Dict.lookup user_id (_tasks s)) as [ud|]; [|done].
  destruct (Dict.lookup task_id ud) as [v|]; [|done].
  rewrite bind_run. unfold as_dict. rewrite bind_run. simpl.
  destruct v as [| | | |l]; try done.
  destruct (heap s !! l) as [[d| |]|] eqn:Hl; try done.
  intros [= <- <-]. eauto 6.
Qed.

Lemma steps_seen_inv task_id user_id s xs :
  steps_seen task_id user_id s = Some xs ->
  exists l d m,
    record_of (_tasks s) task_id user_id = Some (VRef l)
    /\ heap s !! l = Some (ODict d)
    /\ Dict.lookup "steps" d = Some (VRef m)
    /\ heap s !! m = Some (OList xs).
Proof.
  unfold steps_seen.
  destruct (get_task task_id user_id s) as [[[r|]|e] s'] eqn:Hg; try done.
  apply get_task_inv in Hg as (l & d & Hr & Hl & -> & ->).
  rewrite lookup_filter_agent.
  change (String.eqb "steps" "agent") with false. cbv iota.
  destruct (Dict.lookup "steps" d) as [v|] eqn:Hf; [|done].
  destruct v as [| | | |m]; try done. simpl.
  destruct (heap s !! m) as [[| |]|] eqn:Hm; try done.
  intros [= <-]. eauto 8.
Qed.

(** ** What a call can change *)

Lemma frame_refl F s : frame F s s.
Proof. by split. Qed.

Lemma frame_trans F s1 s2 s3 : frame F s1 s2 -> frame F s2 s3 -> frame F s1 s3.
Proof.
  intros [Ht1 Hh1] [Ht2 Hh2]. split; [congruence|]. eauto.
Qed.

Lemma frame_mono F F' s s' :
  (forall l, In l F -> In l F') -> frame F s s' -> frame F' s s'.
Proof. intros Hsub [Ht Hh]. split; [done|]. eauto. Qed.

Lemma frame_pure {A} (m : M A) F s : pure_M m -> frame F s (m s).2.
Proof. intros ->. apply frame_refl. Qed.

Lemma frame_store_obj l o s : frame [l] s (store_obj l o s).2.
Proof.
  split; [done|]. simpl. intros l' o' Hl' Hn.
  rewrite list_lookup_insert_ne; [done|]. intros ->. apply Hn. by left.
Qed.

Lemma frame_setitem v k x s : frame (locs_of v) s (setitem v k x s).2.
Proof.
  unfold setitem. rewrite bind_run.
  destruct (as_dict TypeError v s) as [[[l d]|e] s'] eqn:Ha;
    pose proof (pure_as_dict TypeError v s) as Hp; rewrite Ha in Hp;
    simpl in Hp; subst s'; [|apply frame_refl].
  unfold as_dict in Ha. rewrite bind_run in Ha. simpl in Ha.
  destruct v as [| | | |l0]; try done.
  destruct (heap s !! l0) as [[| |]|]; try done.
  injection Ha as -> _. apply frame_store_obj.
Qed.

Lemma frame_list_append v x s : frame (locs_of v) s (list_append v x s).2.
Proof.
  unfold list_append. rewrite bind_run. simpl.
  destruct v as [| | | |m]; try apply frame_refl.
  destruct (heap s !! m) as [[| |]|]; try apply frame_refl.
  apply frame_store_obj.
Qed.

Lemma frame_append_to_field field task x s :
  frame (locs_of task ++ field_list (heap s) task field) s
        (append_to_field field task x s).2.
Proof.
  destruct task as [| | | |l]; try apply frame_refl.
  destruct (heap s !! l) as [[d| |]|] eqn:Hl;
    try (unfold append_to_field, as_dict; rewrite !bind_run; simpl;
         rewrite Hl; apply frame_refl).
  destruct (Dict.lookup field d) as [v|] eqn:Hf.
  - unfold append_to_field.
    rewrite bind_run, (as_dict_run _ _ d) by done.
    unfold Dict.mem. rewrite Hf, bind_run. simpl.
    rewrite bind_run, (getitem_run _ d _ v) by done.
    eapply frame_mono; [|apply frame_list_append].
    intros l' Hin. simpl. right. unfold field_list. simpl.
    by rewrite Hl, Hf.
  - rewrite (append_to_field_absent _ _ d) by done.
    split; [done|]. simpl. intros l' o Hl' Hn.
    assert (Hlt : (l' < length (heap s))%nat) by by eapply lookup_lt_Some.
    rewrite list_lookup_insert_ne by lia.
    rewrite list_lookup_insert_ne by (intros ->; apply Hn; by left).
    by rewrite lookup_app_l.
Qed.

Lemma frame_bind {A B} F (m : M A) (f : A -> M B) s :
  frame F s (m s).2 ->
  (forall a, (m s).1 = Ok a -> frame F (m s).2 (f a (m s).2).2) ->
  frame F s ((m ≫= f) s).2.
Proof.
  intros Hm Hf. rewrite bind_run.
  destruct (m s) as [[a|e] s'] eqn:E; simpl in *; [|done].
  eapply frame_trans; [exact Hm|]. by apply Hf.
Qed.

(** A mutator writes to the record it addresses, and to the list it
    appends to, and to nothing else. *)
Lemma frame_mutate m task_id user_id s :
  frame (written (Mutate task_id m) user_id s) s
        (mutate m task_id user_id s).2.
Proof.
  unfold written.
  destruct (record_of (_tasks s) task_id user_id) as [task|] eqn:Hr.
  2:{ rewrite mutate_not_found by done. apply frame_refl. }
  destruct m; simpl;
    unfold update_task, update_task_status, add_task_step, add_task_media,
      set_task_agent, set_task_output, set_task_error, mark_task_finished;
    rewrite (guarded_run _ _ _ _ task) by done;
    rewrite ?app_nil_r.
  - (* update_task *)
    rewrite bind_run.
    destruct (as_dict AttributeError task s) as [[[l d]|e] s1] eqn:Ha;
      pose proof (pure_as_dict AttributeError task s) as Hp;
      rewrite Ha in Hp; simpl in Hp; subst s1; [|apply frame_refl].
    rewrite bind_run.
    destruct (as_dict TypeError update_data s) as [[[l2 d2]|e] s1] eqn:Hb;
      pose proof (pure_as_dict TypeError update_data s) as Hp;
      rewrite Hb in Hp; simpl in Hp; subst s1; [|apply frame_refl].
    unfold as_dict in Ha. rewrite bind_run in Ha. simpl in Ha.
    destruct task as [| | | |l0]; try done.
    destruct (heap s !! l0) as [[| |]|]; try done.
    injection Ha as -> _. apply frame_store_obj.
  - apply frame_setitem.
  - (* add_task_step *)
    apply frame_bind; [apply frame_append_to_field|]. intros [] _.
    apply frame_bind; [|intros; apply frame_refl].
    apply frame_pure, pure_dict_get.
  - apply frame_append_to_field.
  - apply frame_setitem.
  - apply frame_setitem.
  - apply frame_setitem.
  - (* mark_task_finished *)
    apply frame_bind; [apply frame_setitem|]. intros [] _.
    apply frame_setitem.
Qed.

Lemma get_task_fst task_id user_id s :
  (get_task task_id user_id s).1
  = match record_of (_tasks s) task_id user_id with
    | None => Ok None
    | Some (VRef l) =>
        match heap s !! l with
        | Some (ODict d) => Ok (Some (List.filter not_agent d))
        | _ => Raise AttributeError
        end
    | Some _ => Raise AttributeError
    end.
Proof.
  unfold get_task, record_of. rewrite bind_run. simpl.
  destruct (Dict.lookup user_id (_tasks s)) as [ud|]; [|done].
  destruct (Dict.lookup task_id ud) as [v|]; [|done].
  rewrite bind_run. unfold as_dict. rewrite bind_run. simpl.
  destruct v as [| | | |l]; try done.
  by destruct (heap s !! l) as [[| |]|].
Qed.



(** ** Strings in lexicographic order *)

Lemma compare_refl (a : string) : String.compare a a = Eq.
Proof. by apply String_as_OT.cmp_eq. Qed.

Lemma leb_iff (a b : string) :
  String.leb a b = true <-> String_as_OT.lt a b \/ a = b.
Proof.
  unfold String.leb. destruct (String.compare a b) eqn:E.
  - apply String_as_OT.cmp_eq in E. tauto.
  - apply String_as_OT.cmp_lt in E. tauto.
  - split; [done|]. intros [H| ->].
    + apply String_as_OT.cmp_lt in H. unfold String_as_OT.cmp in H.
      congruence.
    + by rewrite compare_refl in E.
Qed.

Lemma ltb_iff (a b : string) :
  String.ltb a b = true <-> String_as_OT.lt a b.
Proof.
  unfold String.ltb. rewrite <- String_as_OT.cmp_lt.
  unfold String_as_OT.cmp. by destruct (String.compare a b).
Qed.

Lemma leb_trans (a b c : string) :
  String.leb a b = true -> String.leb b c = true -> String.leb a c = true.
Proof.
  rewrite !leb_iff. intros [H1| ->] [H2| ->]; auto.
  left. by eapply String_as_OT.lt_trans.
Qed.

Lemma ltb_trans (a b c : string) :
  String.ltb a b = true -> String.ltb b c = true -> String.ltb a c = true.
Proof. rewrite !ltb_iff. apply String_as_OT.lt_trans. Qed.

Lemma ltb_leb (a b : string) : String.ltb a b = true -> String.leb a b = true.
Proof. rewrite ltb_iff, leb_iff. tauto. Qed.

Lemma not_ltb_leb (a b : string) :
  String.ltb a b = false -> String.leb b a = true.
Proof.
  unfold String.ltb, String.leb. rewrite (String.compare_antisym a b).
  by destruct (String.compare b a).
Qed.

(** ** Sorting on string keys *)

Section plain_sort_facts.
Context {A : Type} (key : A -> string).
Local Abbreviation le := (key_le key).

#[local] Instance le_trans : Transitive le.
Proof. intros x y z. apply leb_trans. Qed.

Lemma insert_asc_decorated x l :
  insert_asc (decorate key x) (map (decorate key) l)
  = Ok (map (decorate key) (ins key x l)).
Proof.
  induction l as [|y l IH]; [done|]. simpl.
  destruct (String.ltb (key y) (key x)); simpl; [|done].
  by rewrite IH.
Qed.

Lemma sort_asc_decorated l :
  sort_asc (map (decorate key) l) = Ok (map (decorate key) (isort key l)).
Proof.
  induction l as [|x l IH]; [done|]. simpl.
  rewrite IH. simpl. apply insert_asc_decorated.
Qed.

Lemma ins_perm x l : Permutation (ins key x l) (x :: l).
Proof.
  induction l as [|y l IH]; simpl; [done|].
  destruct (String.ltb (key y) (key x)); [|done].
  rewrite IH. apply perm_swap.
Qed.

Lemma isort_perm l : Permutation (isort key l) l.
Proof.
  induction l as [|x l IH]; simpl; [done|].
  rewrite ins_perm. by constructor.
Qed.

Lemma ins_sorted x l : Sorted le l -> Sorted le (ins key x l).
Proof.
  induction 1 as [|y l Hs IH Hhd]; simpl.
  - repeat constructor.
  - destruct (String.ltb (key y) (key x)) eqn:E.
    + constructor; [done|].
      destruct Hhd as [|z l Hyz]; simpl.
      * constructor. by apply ltb_leb.
      * destruct (String.ltb (key z) (key x)); constructor;
          [done|by apply ltb_leb].
    + constructor; [by constructor|].
      constructor. by apply not_ltb_leb.
Qed.

Lemma isort_sorted l : StronglySorted le (isort key l).
Proof.
  apply Sorted_StronglySorted; [apply le_trans|].
  induction l as [|x l IH]; simpl; [constructor|by apply ins_sorted].
Qed.

Lemma StronglySorted_rev l :
  StronglySorted le l -> StronglySorted (flip le) (rev l).
Proof.
  induction 1 as [|x l Hs IH Hall]; simpl; [constructor|].
  apply StronglySorted_app; split; [|split; [done|repeat constructor]].
  intros y z Hy ->%list_elem_of_singleton. unfold flip.
  rewrite Forall_forall in Hall. apply Hall.
  apply list_elem_of_In, in_rev. by apply list_elem_of_In.
Qed.

(** [sorted(..., reverse=True)] on string keys: the items from the
    greatest key down, the same items. *)
Lemma sorted_reverse_decorated l :
  exists r,
    sorted_ true (map (decorate key) l) = Ok r
    /\ Permutation r l
    /\ StronglySorted (flip le) r.
Proof.
  exists (rev (isort key (rev l))). split; [|split].
  - unfold sorted_. rewrite <- map_rev, sort_asc_decorated. simpl.
    unfold mret, result_ret. f_equal.
    rewrite <- map_rev, map_map. simpl. apply map_id.
  - rewrite <- Permutation_rev, isort_perm. symmetry. apply Permutation_rev.
  - apply StronglySorted_rev, isort_sorted.
Qed.
End plain_sort_facts.

(** ** Slices *)

Lemma py_slice_forward {A} (start len : Z) (l : list A) :
  0 <= start -> 0 <= len ->
  py_slice start (start + len) l
  = take (Z.to_nat len) (drop (Z.to_nat start) l).
Proof.
  intros Hs Hl. unfold py_slice, clamp_index.
  destruct (Z.ltb_spec start 0) as [?|_]; [lia|].
  destruct (Z.ltb_spec (start + len) 0) as [?|_]; [lia|].
  destruct (Z_le_gt_dec (Z.of_nat (length l)) start) as [Hge|Hlt].
  - rewrite Z.min_r by lia.
    rewrite !drop_ge by lia. by rewrite !take_nil.
  - rewrite (Z.min_l start) by lia.
    destruct (Z_le_gt_dec (start + len) (Z.of_nat (length l))) as [Hin|Hout].
    + rewrite Z.min_l by lia. do 2 f_equal. lia.
    + rewrite Z.min_r by lia.
      rewrite !take_ge; [done| |]; rewrite length_drop; lia.
Qed.

Lemma py_slice_past_end {A} (start stop : Z) (l : list A) :
  Z.of_nat (length l) <= start -> py_slice start stop l = [].
Proof.
  intros Hs. unfold py_slice, clamp_index.
  destruct (Z.ltb_spec start 0) as [?|_]; [lia|].
  rewrite (Z.min_r start) by lia. rewrite drop_ge by lia. apply take_nil.
Qed.

Lemma py_slice_page_zero {A} (per_page : Z) (l : list A) :
  0 <= per_page -> py_slice ((0 - 1) * per_page) ((0 - 1) * per_page + per_page) l = [].
Proof.
  intros Hp. unfold py_slice, clamp_index.
  replace ((0 - 1) * per_page + per_page) with 0 by lia.
  change (0 <? 0) with false. cbv iota.
  rewrite (Z.min_l 0) by lia.
  replace (Z.to_nat _) with 0%nat; [done|].
  destruct (Z.ltb_spec ((0 - 1) * per_page) 0); lia.
Qed.

Lemma py_slice_Forall {A} (P : A -> Prop) start stop (l : list A) :
  Forall P l -> Forall P (py_slice start stop l).
Proof. intros H. unfold py_slice. by apply Forall_take, Forall_drop. Qed.

(** ** Listing *)

Lemma mapM_run {A B} (f : A -> M B) (g : A -> B) l s :
  Forall (fun x => f x s = (Ok (g x), s)) l ->
  mapM f l s = (Ok (map g l), s).
Proof.
  induction 1 as [|x l Hx _ IH]; [done|]. simpl.
  by rewrite bind_run, Hx, bind_run, IH.
Qed.

Lemma string_keyed_inv h x :
  string_keyed h x = true ->
  exists l d, x.2 = VRef l /\ h !! l = Some (ODict d)
    /\ default (VStr "") (Dict.lookup "created_at" d)
       = VStr (created_at_of h x).
Proof.
  unfold string_keyed, created_at_of, deref.
  destruct x as [t v]. simpl. destruct v as [| | | |l]; try done.
  destruct (h !! l) as [[d| |]|] eqn:Hl; try done.
  intros H. exists l, d. split; [done|]. split; [done|].
  by destruct (Dict.lookup "created_at" d) as [[]|].
Qed.

Lemma created_at_key_run x s :
  string_keyed (heap s) x = true ->
  created_at_key x s = (Ok (decorate (created_at_of (heap s)) x), s).
Proof.
  intros (l & d & Hx & Hl & Hc)%string_keyed_inv.
  unfold created_at_key. rewrite Hx, bind_run, (dict_get_run _ d) by done.
  by rewrite Hc.
Qed.

Lemma task_summary_run x s :
  string_keyed (heap s) x = true ->
  task_summary x s = (Ok (summary_at (heap s) x), s).
Proof.
  intros (l & d & Hx & Hl & _)%string_keyed_inv.
  destruct x as [t v]. simpl in Hx. subst v.
  unfold task_summary, summary_at. simpl. rewrite Hl.
  by repeat (rewrite bind_run, (dict_get_run _ d) by done).
Qed.

(** [list_tasks] once the sort has gone through. *)
Lemma list_tasks_run user_id page per_page user_tasks sorted_tasks s :
  Dict.lookup user_id (_tasks s) = Some user_tasks ->
  Forall (fun x => string_keyed (heap s) x = true) user_tasks ->
  sorted_ true (map (decorate (created_at_of (heap s))) user_tasks)
  = Ok sorted_tasks ->
  Forall (fun x => string_keyed (heap s) x = true) sorted_tasks ->
  list_tasks user_id page per_page s
  = (Ok {| tasks := map (summary_at (heap s))
                      (py_slice ((page - 1) * per_page)
                                ((page - 1) * per_page + per_page)
                                sorted_tasks);
           total := length user_tasks;
           page := page; per_page := per_page |}, s).
Proof.
  intros Hu Hk Hsort Hk'. unfold list_tasks. rewrite bind_run. simpl.
  rewrite Hu, bind_run.
  rewrite (mapM_run _ (decorate (created_at_of (heap s)))).
  2:{ eapply Forall_impl; [exact Hk|].
      intros x Hx. by apply created_at_key_run. }
  rewrite bind_run. unfold lift at 1. rewrite Hsort, bind_run.
  rewrite (mapM_run _ (summary_at (heap s))); [done|].
  apply py_slice_Forall.
  eapply Forall_impl; [exact Hk'|].
  intros x Hx. by apply task_summary_run.
Qed.

Lemma sorted_three {A} (key : A -> string) (x1 x2 x3 : A) :
  String.ltb (key x1) (key x2) = true ->
  String.ltb (key x2) (key x3) = true ->
  sorted_ true (map (decorate key) [x1; x2; x3]) = Ok [x3; x2; x1].
Proof.
  intros H12 H23. pose proof (ltb_trans _ _ _ H12 H23) as H13.
  unfold sorted_. rewrite <- map_rev, sort_asc_decorated.
  simpl. rewrite H12. simpl. rewrite H13. simpl. by rewrite H23.
Qed.

(** * Further properties *)

(** ** Creating and deleting *)

Section dict_more.
Context {V : Type}.
Implicit Types (k : string) (d : list (string * V)).

Lemma set_set k v w d : Dict.set k v (Dict.set k w d) = Dict.set k v d.
Proof.
  induction d as [|[k' v'] d IH]; simpl.
  - by rewrite String.eqb_refl.
  - destruct (String.eqb k' k) eqn:E; simpl; rewrite E; [done|].
    by rewrite IH.
Qed.

Lemma alter_alter f g k (ts : list (string * V)) :
  Dict.alter f k (Dict.alter g k ts) = Dict.alter (fun x => f (g x)) k ts.
Proof.
  induction ts as [|[k' v'] ts IH]; simpl; [done|].
  destruct (String.eqb k' k) eqn:E; simpl; rewrite E; [done|].
  by rewrite IH.
Qed.

Lemma alter_ext f g k (ts : list (string * V)) :
  (forall x, f x = g x) -> Dict.alter f k ts = Dict.alter g k ts.
Proof.
  intros H. induction ts as [|[k' v'] ts IH]; simpl; [done|].
  destruct (String.eqb k' k); [by rewrite H|by rewrite IH].
Qed.

Lemma mem_alter f k k' (ts : list (string * V)) :
  Dict.mem k' (Dict.alter f k ts) = Dict.mem k' ts.
Proof.
  unfold Dict.mem. destruct (String.eqb_spec k k') as [->|Hne].
  - rewrite lookup_alter_eq. by destruct (Dict.lookup k' ts).
  - by rewrite lookup_alter_ne.
Qed.

Lemma keys_set_present k v d :
  Dict.mem k d = true -> Dict.keys (Dict.set k v d) = Dict.keys d.
Proof.
  unfold Dict.mem, Dict.keys.
  induction d as [|[k' v'] d IH]; simpl; [done|].
  destruct (String.eqb k' k); simpl; [done|].
  intros H. by rewrite IH.
Qed.

Lemma keys_set_absent k v d :
  Dict.mem k d = false -> Dict.keys (Dict.set k v d) = Dict.keys d ++ [k].
Proof.
  unfold Dict.mem, Dict.keys.
  induction d as [|[k' v'] d IH]; simpl; [done|].
  destruct (String.eqb k' k); simpl; [done|].
  intros H. by rewrite IH.
Qed.

Lemma lookup_remove_ne k k' d :
  k <> k' -> Dict.lookup k' (Dict.remove k d) = Dict.lookup k' d.
Proof.
  intros Hne. induction d as [|[k0 v0] d IH]; simpl; [done|].
  destruct (String.eqb_spec k0 k) as [->|Hk]; simpl.
  - by apply String.eqb_neq in Hne as ->.
  - by rewrite IH.
Qed.

Lemma lookup_None_keys k d : Dict.lookup k d = None <-> ~ In k (Dict.keys d).
Proof.
  unfold Dict.keys. induction d as [|[k0 v0] d IH]; simpl; [tauto|].
  destruct (String.eqb_spec k0 k) as [->|Hk].
  - split; [done|]. intros H. exfalso. apply H. by left.
  - rewrite IH. tauto.
Qed.

Lemma lookup_remove_eq k d :
  NoDup (Dict.keys d) -> Dict.lookup k (Dict.remove k d) = None.
Proof.
  unfold Dict.keys. induction d as [|[k0 v0] d IH]; simpl; [done|].
  intros [Hnotin Hnd]%NoDup_cons.
  destruct (String.eqb_spec k0 k) as [->|Hk]; simpl.
  - apply lookup_None_keys. unfold Dict.keys.
    by rewrite <- list_elem_of_In.
  - apply String.eqb_neq in Hk as ->. by apply IH.
Qed.

Lemma length_remove k d :
  Dict.mem k d = true -> S (length (Dict.remove k d)) = length d.
Proof.
  unfold Dict.mem. induction d as [|[k0 v0] d IH]; simpl; [done|].
  destruct (String.eqb k0 k); simpl; [done|].
  intros H. by rewrite IH.
Qed.
End dict_more.

Lemma delete_task_run task_id user_id s :
  delete_task task_id user_id s
  = match record_of (_tasks s) task_id user_id with
    | Some _ =>
        (Ok true,
         mkState (Dict.alter (Dict.remove task_id) user_id (_tasks s))
                 (heap s))
    | None => (Ok false, s)
    end.
Proof.
  unfold delete_task. rewrite bind_run, task_exists_run.
  by destruct (record_of (_tasks s) task_id user_id).
Qed.

Lemma record_of_create_ne task_id task_data user_id t u s :
  (t, u) <> (task_id, user_id) ->
  record_of (_tasks (create_task task_id task_data user_id s).2) t u
  = record_of (_tasks s) t u.
Proof.
  intros Hne. rewrite create_task_run. unfold record_of. simpl.
  destruct (String.eqb_spec user_id u) as [->|Hu].
  - assert (Ht : task_id <> t) by congruence.
    rewrite lookup_alter_eq.
    destruct (Dict.mem u (_tasks s)) eqn:E.
    + apply mem_lookup in E as [ud ->]. simpl. by apply lookup_set_ne.
    + rewrite lookup_set_eq. apply mem_false in E as ->. simpl.
      by apply String.eqb_neq in Ht as ->.
  - rewrite lookup_alter_ne by done.
    destruct (Dict.mem user_id (_tasks s)); [done|].
    by rewrite lookup_set_ne.
Qed.

Lemma get_task_same_record t u s s' :
  record_of (_tasks s') t u = record_of (_tasks s) t u ->
  heap s' = heap s ->
  (get_task t u s').1 = (get_task t u s).1
  /\ (task_exists t u s').1 = (task_exists t u s).1
  /\ (get_task_agent t u s').1 = (get_task_agent t u s).1.
Proof.
  intros Hr Hh. rewrite !get_task_fst, Hr, Hh. split; [done|].
  rewrite !task_exists_run, Hr. split; [done|].
  unfold get_task_agent. rewrite !bind_run, !task_exists_run, Hr.
  destruct (record_of (_tasks s) t u) as [v|] eqn:E; simpl; [|done].
  rewrite !bind_run, (task_ref_run _ _ s v), (task_ref_run _ _ s' v)
    by congruence.
  unfold dict_get, as_dict. rewrite !bind_run. simpl. rewrite Hh.
  destruct v as [| | | |l]; try done.
  by destruct (heap s !! l) as [[| |]|].
Qed.

(** X1: [create_task] always succeeds; the task then exists with the given
    record, no object is touched, and every other pair of user and task
    reads as before. *)
Theorem create_task_sets_one_entry task_id task_data user_id s :
  let out := create_task task_id task_data user_id s in
  out.1 = Ok tt
  /\ task_exists task_id user_id out.2 = (Ok true, out.2)
  /\ record_of (_tasks out.2) task_id user_id = Some task_data
  /\ heap out.2 = heap s
  /\ (forall t u, (t, u) <> (task_id, user_id) ->
        (get_task t u out.2).1 = (get_task t u s).1
        /\ (task_exists t u out.2).1 = (task_exists t u s).1
        /\ (get_task_agent t u out.2).1 = (get_task_agent t u s).1).
Proof.
  intros out. subst out.
  pose proof (record_of_create task_id task_data user_id s) as Hr.
  split; [by rewrite create_task_run|].
  split; [by rewrite task_exists_run, Hr|].
  split; [exact Hr|].
  split; [by rewrite create_task_run|].
  intros t u Hne. apply get_task_same_record.
  - by apply record_of_create_ne.
  - by rewrite create_task_run.
Qed.

Lemma create_task_sets_one_entry_witness :
  (get_task "t1" "u" (create_task "t4" (VRef 4%nat) "u" ex_three).2).1
  = (get_task "t1" "u" ex_three).1.
Proof.
  refine (proj1 (proj2 (proj2 (proj2 (proj2
    (create_task_sets_one_entry "t4" (VRef 4%nat) "u" ex_three))))
    "t1" "u" _)).
  discriminate.
Defined.

(** X2: [delete_task] on an existing task of a namespace with distinct ids
    returns [True]; afterwards the task does not exist and [get_task] gives
    [None]; no object is touched, the user keeps a namespace, and every
    other pair of user and task reads as before. *)
Theorem delete_task_removes_one_entry task_id user_id s :
  task_exists task_id user_id s = (Ok true, s) ->
  NoDup (Dict.keys (namespace user_id s)) ->
  let out := delete_task task_id user_id s in
  out.1 = Ok true
  /\ task_exists task_id user_id out.2 = (Ok false, out.2)
  /\ get_task task_id user_id out.2 = (Ok None, out.2)
  /\ heap out.2 = heap s
  /\ Dict.mem user_id (_tasks out.2) = true
  /\ (forall t u, (t, u) <> (task_id, user_id) ->
        (get_task t u out.2).1 = (get_task t u s).1
        /\ (task_exists t u out.2).1 = (task_exists t u s).1
        /\ (get_task_agent t u out.2).1 = (get_task_agent t u s).1).
Proof.
  rewrite task_exists_run. intros He Hnd out. subst out.
  rewrite delete_task_run. unfold namespace in Hnd.
  destruct (record_of (_tasks s) task_id user_id) as [v|] eqn:Hr;
    [|discriminate].
  unfold record_of in Hr.
  destruct (Dict.lookup user_id (_tasks s)) as [ud|] eqn:Hu; [|done].
  simpl in Hnd. simpl.
  assert (Hgone : record_of (Dict.alter (Dict.remove task_id) user_id
                               (_tasks s)) task_id user_id = None).
  { unfold record_of. rewrite lookup_alter_eq, Hu. simpl.
    by apply lookup_remove_eq. }
  split; [done|]. split; [by rewrite task_exists_run; simpl; rewrite Hgone|].
  split.
  { pose proof (get_task_fst task_id user_id
      (mkState (Dict.alter (Dict.remove task_id) user_id (_tasks s))
               (heap s))) as Hg.
    simpl in Hg. rewrite Hgone in Hg.
    pose proof (pure_get_task task_id user_id
      (mkState (Dict.alter (Dict.remove task_id) user_id (_tasks s))
               (heap s))) as Hp.
    destruct (get_task _ _ _) as [r s']. simpl in *. by subst. }
  split; [done|].
  split; [by rewrite mem_alter; unfold Dict.mem; rewrite Hu|].
  intros t u Hne. apply get_task_same_record; [|done].
  unfold record_of. simpl.
  destruct (String.eqb_spec user_id u) as [->|Hne'].
  - rewrite lookup_alter_eq, Hu. simpl. apply lookup_remove_ne. congruence.
  - by rewrite lookup_alter_ne.
Qed.

Lemma delete_task_removes_one_entry_witness :
  (delete_task "t2" "u" ex_three).1 = Ok true
  /\ get_task "t2" "u" (delete_task "t2" "u" ex_three).2
     = (Ok None, (delete_task "t2" "u" ex_three).2).
Proof.
  assert (H : NoDup (Dict.keys (namespace "u" ex_three))).
  { unfold namespace. simpl.
    repeat (apply NoDup_cons_2;
            [rewrite list_elem_of_In; simpl; intuition discriminate|]).
    apply NoDup_nil_2. }
  pose proof (delete_task_removes_one_entry "t2" "u" ex_three eq_refl H)
    as (H1 & _ & H3 & _).
  split; [exact H1|exact H3].
Defined.

(** X3: [delete_task] on a task that does not exist returns [False] and
    changes nothing, so a second delete is harmless. *)
Theorem delete_task_absent task_id user_id s :
  task_exists task_id user_id s = (Ok false, s) ->
  delete_task task_id user_id s = (Ok false, s).
Proof.
  intros He%task_exists_false. by rewrite delete_task_run, He.
Qed.

Lemma delete_task_absent_witness :
  delete_task "t2" "u" (delete_task "t2" "u" ex_three).2
  = (Ok false, (delete_task "t2" "u" ex_three).2).
Proof. apply delete_task_absent. reflexivity. Defined.

(** X4: the ids of a user's namespace, in their order: [create_task] of a
    new id puts it last, [create_task] of an existing id keeps ids and
    order (the record is replaced in place), and [delete_task] of an
    existing id leaves one task fewer. *)
Theorem namespace_ids_after_create_delete task_id task_data user_id s :
  let ids := Dict.keys (namespace user_id s) in
  let created := (create_task task_id task_data user_id s).2 in
  let deleted := (delete_task task_id user_id s).2 in
  (task_exists task_id user_id s = (Ok false, s) ->
   Dict.keys (namespace user_id created) = ids ++ [task_id])
  /\ (task_exists task_id user_id s = (Ok true, s) ->
      Dict.keys (namespace user_id created) = ids
      /\ S (length (namespace user_id deleted))
         = length (namespace user_id s)).
Proof.
  intros ids created deleted. subst ids created deleted.
  rewrite create_task_run, delete_task_run, task_exists_run.
  unfold namespace, record_of. simpl. rewrite lookup_alter_eq.
  destruct (Dict.lookup user_id (_tasks s)) as [ud|] eqn:Hu.
  - assert (Hm : Dict.mem user_id (_tasks s) = true)
      by by unfold Dict.mem; rewrite Hu.
    rewrite Hm, Hu. simpl. split.
    + destruct (Dict.lookup task_id ud) eqn:Ht; [done|]. intros _.
      apply keys_set_absent. by apply mem_false.
    + destruct (Dict.lookup task_id ud) eqn:Ht; [|done]. intros _.
      assert (Hmt : Dict.mem task_id ud = true)
        by by unfold Dict.mem; rewrite Ht.
      split; [by apply keys_set_present|].
      simpl. rewrite lookup_alter_eq, Hu. simpl. by apply length_remove.
  - assert (Hm : Dict.mem user_id (_tasks s) = false)
      by by unfold Dict.mem; rewrite Hu.
    rewrite Hm, lookup_set_eq. simpl. split; [done|done].
Qed.

Lemma namespace_ids_after_create_delete_witness :
  Dict.keys (namespace "u" (create_task "t4" (VRef 4%nat) "u" ex_three).2)
  = ["t1"; "t2"; "t3"; "t4"]
  /\ Dict.keys (namespace "u" (create_task "t2" (VRef 4%nat) "u" ex_three).2)
     = ["t1"; "t2"; "t3"].
Proof.
  split.
  - exact (proj1 (namespace_ids_after_create_delete "t4" (VRef 4%nat) "u"
                    ex_three) eq_refl).
  - exact (proj1 (proj2 (namespace_ids_after_create_delete "t2"
                           (VRef 4%nat) "u" ex_three) eq_refl)).
Defined.

(** X5: creating a task twice with the same record leaves the state that
    creating it once leaves. *)
Theorem create_task_twice_is_once task_id task_data user_id s :
  create_task task_id task_data user_id
    (create_task task_id task_data user_id s).2
  = create_task task_id task_data user_id s.
Proof.
  rewrite (create_task_run _ _ _ (create_task _ _ _ s).2).
  rewrite !create_task_run. simpl. f_equal. f_equal.
  rewrite mem_alter.
  assert (Hm : Dict.mem user_id
                 (if Dict.mem user_id (_tasks s) then _tasks s
                  else Dict.set user_id [] (_tasks s)) = true).
  { destruct (Dict.mem user_id (_tasks s)) eqn:E; [done|].
    unfold Dict.mem. by rewrite lookup_set_eq. }
  rewrite Hm, alter_alter. apply alter_ext. intros ud. apply set_set.
Qed.

(** ** Updating fields *)

Lemma lookup_update_absent k (d2 : dict) : forall d : dict,
  Dict.lookup k d2 = None ->
  Dict.lookup k (Dict.update d d2) = Dict.lookup k d.
Proof.
  unfold Dict.update.
  induction d2 as [|[k' v'] d2 IH]; intros d; simpl; [done|].
  destruct (String.eqb_spec k' k) as [->|Hne]; [done|].
  intros H. rewrite IH by done. by apply lookup_set_ne.
Qed.

Lemma lookup_update_present k v (d2 : dict) : forall d : dict,
  NoDup (Dict.keys d2) ->
  Dict.lookup k d2 = Some v ->
  Dict.lookup k (Dict.update d d2) = Some v.
Proof.
  induction d2 as [|[k' v'] d2 IH]; intros d; simpl; [done|].
  intros [Hnotin Hnd]%NoDup_cons.
  destruct (String.eqb_spec k' k) as [->|Hne].
  - intros [= ->].
    change (Dict.update d ((k, v) :: d2))
      with (Dict.update (Dict.set k v d) d2).
    rewrite lookup_update_absent; [apply lookup_set_eq|].
    apply lookup_None_keys. by rewrite <- list_elem_of_In.
  - intros H.
    change (Dict.update d ((k', v') :: d2))
      with (Dict.update (Dict.set k' v' d) d2).
    by apply IH.
Qed.

Lemma filter_set_agent a (d : dict) :
  List.filter not_agent (Dict.set "agent" a d) = List.filter not_agent d.
Proof.
  induction d as [|[k v] d IH]; [done|]. simpl.
  destruct (String.eqb k "agent") eqn:E; simpl.
  - unfold not_agent. simpl. by rewrite E.
  - by rewrite IH.
Qed.

Lemma get_task_agent_run task_id user_id l d s :
  record_of (_tasks s) task_id user_id = Some (VRef l) ->
  heap s !! l = Some (ODict d) ->
  get_task_agent task_id user_id s
  = (Ok (default VNone (Dict.lookup "agent" d)), s).
Proof.
  intros Hr Hl. unfold get_task_agent.
  rewrite bind_run, task_exists_run, Hr. simpl.
  rewrite bind_run, (task_ref_run _ _ _ (VRef l)) by done.
  by apply dict_get_run.
Qed.

(** The run of a method that writes one field of the record. *)
Lemma setter_run (set_field : M unit) task_id user_id k x l d s :
  record_of (_tasks s) task_id user_id = Some (VRef l) ->
  heap s !! l = Some (ODict d) ->
  set_field
  = (e ← task_exists task_id user_id;
     if negb e then raise (not_found task_id user_id) else
     task ← task_ref task_id user_id; setitem task k x) ->
  set_field s
  = (Ok tt, mkState (_tasks s) (<[l:=ODict (Dict.set k x d)]> (heap s))).
Proof.
  intros Hr Hl ->. rewrite (guarded_run _ _ _ _ (VRef l)) by done.
  by apply setitem_run.
Qed.

Lemma get_task_after_write task_id user_id l d d' s :
  record_of (_tasks s) task_id user_id = Some (VRef l) ->
  heap s !! l = Some (ODict d) ->
  let s' := mkState (_tasks s) (<[l:=ODict d']> (heap s)) in
  get_task task_id user_id s' = (Ok (Some (List.filter not_agent d')), s')
  /\ get_task_agent task_id user_id s'
     = (Ok (default VNone (Dict.lookup "agent" d')), s').
Proof.
  intros Hr Hl s'. split.
  - apply (get_task_run _ _ l); [done|]. simpl. by eapply heap_insert_eq.
  - apply (get_task_agent_run _ _ l); [done|]. simpl.
    by eapply heap_insert_eq.
Qed.

(** X6: [update_task] on an existing task with a dict of changes succeeds
    and merges: afterwards a field named in the changes has the new value,
    every other field has the value it had, and the agent is the one the
    changes name, if they name one. *)
Theorem update_task_merges task_id user_id l d l2 d2 s :
  record_of (_tasks s) task_id user_id = Some (VRef l) ->
  heap s !! l = Some (ODict d) ->
  heap s !! l2 = Some (ODict d2) ->
  NoDup (Dict.keys d2) ->
  exists s' r,
    update_task task_id (VRef l2) user_id s = (Ok tt, s')
    /\ _tasks s' = _tasks s
    /\ get_task task_id user_id s' = (Ok (Some r), s')
    /\ (forall k v, k <> "agent" -> Dict.lookup k d2 = Some v ->
          Dict.lookup k r = Some v)
    /\ (forall k, k <> "agent" -> Dict.lookup k d2 = None ->
          Dict.lookup k r = Dict.lookup k d)
    /\ (forall a, Dict.lookup "agent" d2 = Some a ->
          get_task_agent task_id user_id s' = (Ok a, s')).
Proof.
  intros Hr Hl Hl2 Hnd.
  destruct (get_task_after_write task_id user_id l d (Dict.update d d2) s)
    as [Hget Hagent]; try done.
  eexists _, _. split; [|split; [|split; [exact Hget|]]].
  - unfold update_task. rewrite (guarded_run _ _ _ _ (VRef l)) by done.
    rewrite bind_run, (as_dict_run _ _ d) by done.
    by rewrite bind_run, (as_dict_run _ _ d2) by done.
  - done.
  - split; [|split].
    + intros k v Hk Hin. rewrite lookup_filter_agent.
      apply String.eqb_neq in Hk as ->. by apply lookup_update_present.
    + intros k Hk Hnone. rewrite lookup_filter_agent.
      apply String.eqb_neq in Hk as ->. by apply lookup_update_absent.
    + intros a Ha. rewrite Hagent.
      by rewrite (lookup_update_present _ a).
Qed.

Lemma update_task_merges_witness :
  exists s' r,
    update_task "t1" (VRef 2%nat) "u" ex_three = (Ok tt, s')
    /\ get_task "t1" "u" s' = (Ok (Some r), s')
    /\ Dict.lookup "created_at" r = Some (VStr "2024-01-02T00:00:00Z")
    /\ Dict.lookup "status" r = Some (VStr "created").
Proof.
  assert (H : NoDup (Dict.keys [("created_at",
                                 VStr "2024-01-02T00:00:00Z")])).
  { apply NoDup_cons_2; [|apply NoDup_nil_2].
    rewrite list_elem_of_In. simpl. tauto. }
  destruct (update_task_merges "t1" "u" 0%nat _ 2%nat _ ex_three
              eq_refl eq_refl eq_refl H)
    as (s' & r & Hrun & _ & Hget & Hnew & Hold & _).
  exists s', r. split; [exact Hrun|]. split; [exact Hget|]. split.
  - apply Hnew; [discriminate|reflexivity].
  - rewrite Hold; [reflexivity|discriminate|reflexivity].
Defined.

(** X7: on an existing task [set_task_agent] succeeds, [get_task_agent]
    then returns that agent, and [get_task] returns what it returned
    before: the agent is stored and stays out of the snapshot. *)
Theorem agent_round_trip task_id user_id agent l d s :
  record_of (_tasks s) task_id user_id = Some (VRef l) ->
  heap s !! l = Some (ODict d) ->
  exists s',
    set_task_agent task_id agent user_id s = (Ok tt, s')
    /\ get_task_agent task_id user_id s' = (Ok agent, s')
    /\ (get_task task_id user_id s').1 = (get_task task_id user_id s).1.
Proof.
  intros Hr Hl.
  destruct (get_task_after_write task_id user_id l d
              (Dict.set "agent" agent d) s) as [Hget Hagent]; try done.
  eexists. split; [|split].
  - by apply (setter_run _ task_id user_id "agent" agent l d).
  - by rewrite Hagent, lookup_set_eq.
  - rewrite Hget, (get_task_run _ _ l d) by done. simpl.
    by rewrite filter_set_agent.
Qed.

Lemma agent_round_trip_witness :
  exists s',
    set_task_agent "t2" (VRef 1%nat) "u" ex_three = (Ok tt, s')
    /\ get_task_agent "t2" "u" s' = (Ok (VRef 1%nat), s')
    /\ (get_task "t2" "u" s').1 = (get_task "t2" "u" ex_three).1.
Proof.
  exact (agent_round_trip "t2" "u" (VRef 1%nat) 2%nat _ ex_three
           eq_refl eq_refl).
Defined.

(** X8: [get_task_agent] returns [None], and raises nothing, when the task
    does not exist and when its record has no "agent" key; otherwise it
    returns the value under that key, which [get_task] leaves out. *)
Theorem get_task_agent_or_none task_id user_id s :
  (task_exists task_id user_id s = (Ok false, s) ->
   get_task_agent task_id user_id s = (Ok VNone, s))
  /\ (forall l d,
        record_of (_tasks s) task_id user_id = Some (VRef l) ->
        heap s !! l = Some (ODict d) ->
        get_task_agent task_id user_id s
        = (Ok (default VNone (Dict.lookup "agent" d)), s)
        /\ (Dict.lookup "agent" d = None ->
            get_task_agent task_id user_id s = (Ok VNone, s))).
Proof.
  split.
  - intros He%task_exists_false. unfold get_task_agent.
    by rewrite bind_run, task_exists_run, He.
  - intros l d Hr Hl.
    rewrite (get_task_agent_run _ _ l d) by done.
    split; [done|]. by intros ->.
Qed.

Lemma get_task_agent_or_none_witness :
  get_task_agent "t9" "u" ex_three = (Ok VNone, ex_three)
  /\ get_task_agent "t1" "u" ex_three = (Ok (VRef 1%nat), ex_three)
  /\ get_task_agent "t2" "u" ex_three = (Ok VNone, ex_three).
Proof.
  split; [|split].
  - exact (proj1 (get_task_agent_or_none "t9" "u" ex_three) eq_refl).
  - exact (proj1 (proj2 (get_task_agent_or_none "t1" "u" ex_three)
                    0%nat _ eq_refl eq_refl)).
  - exact (proj2 (proj2 (get_task_agent_or_none "t2" "u" ex_three)
                    2%nat _ eq_refl eq_refl) eq_refl).
Defined.

(** X9: [update_task_status], [set_task_output] and [set_task_error] on an
    existing task each succeed and write one field: afterwards [get_task]
    shows the given string under "status", "output" or "error" and every
    other field as it was. *)
Theorem setters_write_one_field task_id user_id x l d s :
  record_of (_tasks s) task_id user_id = Some (VRef l) ->
  heap s !! l = Some (ODict d) ->
  forall set_field k,
    In (set_field, k)
       [(update_task_status task_id x user_id, "status");
        (set_task_output task_id x user_id, "output");
        (set_task_error task_id x user_id, "error")] ->
    exists s' r r0,
      set_field s = (Ok tt, s')
      /\ get_task task_id user_id s = (Ok (Some r0), s)
      /\ get_task task_id user_id s' = (Ok (Some r), s')
      /\ Dict.lookup k r = Some (VStr x)
      /\ (forall k', k' <> k -> Dict.lookup k' r = Dict.lookup k' r0).
Proof.
  intros Hr Hl set_field k Hin.
  assert (Hk : String.eqb k "agent" = false
               /\ set_field s
                  = (Ok tt, mkState (_tasks s)
                              (<[l:=ODict (Dict.set k (VStr x) d)]>
                                 (heap s)))).
  { simpl in Hin.
    destruct Hin as [[= <- <-]|[[= <- <-]|[[= <- <-]|[]]]];
      (split; [done|]);
      by apply (setter_run _ task_id user_id _ (VStr x) l d). }
  destruct Hk as [Hk Hrun].
  destruct (get_task_after_write task_id user_id l d
              (Dict.set k (VStr x) d) s) as [Hget _]; try done.
  eexists _, _, _. split; [exact Hrun|].
  split; [by apply (get_task_run _ _ l d)|].
  split; [exact Hget|]. split.
  - by rewrite lookup_filter_agent, Hk, lookup_set_eq.
  - intros k' Hne. rewrite !lookup_filter_agent.
    destruct (String.eqb k' "agent"); [done|].
    by apply lookup_set_ne.
Qed.

Lemma setters_write_one_field_witness :
  exists s' r r0,
    set_task_output "t2" "done" "u" ex_three = (Ok tt, s')
    /\ get_task "t2" "u" ex_three = (Ok (Some r0), ex_three)
    /\ get_task "t2" "u" s' = (Ok (Some r), s')
    /\ Dict.lookup "output" r = Some (VStr "done")
    /\ (forall k', k' <> "output" -> Dict.lookup k' r = Dict.lookup k' r0).
Proof.
  apply (setters_write_one_field "t2" "u" "done" 2%nat _ ex_three
           eq_refl eq_refl).
  simpl. right. left. reflexivity.
Defined.

(** ** Steps and media at the edges *)

Lemma list_seen_run field task_id user_id l d m xs s :
  String.eqb field "agent" = false ->
  record_of (_tasks s) task_id user_id = Some (VRef l) ->
  heap s !! l = Some (ODict d) ->
  Dict.lookup field d = Some (VRef m) ->
  heap s !! m = Some (OList xs) ->
  list_seen field task_id user_id s = Some xs.
Proof.
  intros Hk Hr Hl Hf Hm. unfold list_seen.
  rewrite (get_task_run _ _ l d) by done.
  rewrite lookup_filter_agent, Hk, Hf. simpl. by rewrite Hm.
Qed.

Lemma list_seen_inv field task_id user_id s xs :
  String.eqb field "agent" = false ->
  list_seen field task_id user_id s = Some xs ->
  exists l d m,
    record_of (_tasks s) task_id user_id = Some (VRef l)
    /\ heap s !! l = Some (ODict d)
    /\ Dict.lookup field d = Some (VRef m)
    /\ heap s !! m = Some (OList xs).
Proof.
  intros Hk. unfold list_seen.
  destruct (get_task task_id user_id s) as [[[r|]|e] s'] eqn:Hg; try done.
  apply get_task_inv in Hg as (l & d & Hr & Hl & -> & ->).
  rewrite lookup_filter_agent, Hk.
  destruct (Dict.lookup field d) as [v|] eqn:Hf; [|done].
  destruct v as [| | | |m]; try done. simpl.
  destruct (heap s !! m) as [[| |]|] eqn:Hm; try done.
  intros [= <-]. eauto 8.
Qed.

Lemma add_task_media_run task_id user_id x l s :
  record_of (_tasks s) task_id user_id = Some (VRef l) ->
  add_task_media task_id x user_id s = append_to_field "media" (VRef l) x s.
Proof.
  intros Hr. unfold add_task_media.
  by rewrite (guarded_run _ _ _ _ (VRef l)).
Qed.

Lemma add_task_media_all_present task_id user_id l d m ms : forall old s,
  record_of (_tasks s) task_id user_id = Some (VRef l) ->
  heap s !! l = Some (ODict d) ->
  Dict.lookup "media" d = Some (VRef m) ->
  heap s !! m = Some (OList old) ->
  exists h',
    add_task_media_all task_id ms user_id s = (Ok tt, mkState (_tasks s) h')
    /\ h' !! l = Some (ODict d)
    /\ h' !! m = Some (OList (old ++ ms)).
Proof.
  induction ms as [|x ms IH]; intros old s Hr Hl Hf Hm.
  - exists (heap s). rewrite app_nil_r. by destruct s.
  - simpl. rewrite bind_run, (add_task_media_run _ _ _ l) by done.
    rewrite (append_to_field_present _ _ d m old) by done.
    assert (Hlm : l <> m) by congruence.
    destruct (IH (old ++ [x])
                (mkState (_tasks s) (<[m:=OList (old ++ [x])]> (heap s))))
      as (h' & Hrun & Hl' & Hm'); simpl; try done.
    + by rewrite list_lookup_insert_ne.
    + by eapply heap_insert_eq.
    + exists h'. rewrite Hrun. simpl in *.
      by rewrite <- app_assoc in Hm'.
Qed.

(** X10: on an existing task whose record is a dict, N calls of
    [add_task_media], with descriptors of any kind, succeed and leave
    under "media" the entries that were there followed by the new ones in
    the order of the calls; the first call makes the list when the record
    has no "media" yet. *)
Theorem add_task_media_appends task_id user_id ms s :
  (forall old, list_seen "media" task_id user_id s = Some old ->
     exists s', add_task_media_all task_id ms user_id s = (Ok tt, s')
                /\ list_seen "media" task_id user_id s' = Some (old ++ ms))
  /\ (forall r, get_task task_id user_id s = (Ok (Some r), s) ->
       Dict.lookup "media" r = None -> ms <> [] ->
       exists s', add_task_media_all task_id ms user_id s = (Ok tt, s')
                  /\ list_seen "media" task_id user_id s' = Some ms).
Proof.
  split.
  - intros old (l & d & m & Hr & Hl & Hf & Hm)%list_seen_inv; [|done].
    destruct (add_task_media_all_present task_id user_id l d m ms old s)
      as (h' & Hrun & Hl' & Hm'); try done.
    eexists. split; [exact Hrun|].
    by apply (list_seen_run _ _ _ l d m).
  - intros r (l & d & Hr & Hl & -> & _)%get_task_inv Hf Hne.
    rewrite lookup_filter_agent in Hf.
    change (String.eqb "media" "agent") with false in Hf. cbv iota in Hf.
    destruct ms as [|x ms]; [done|]. simpl.
    rewrite bind_run, (add_task_media_run _ _ _ l) by done.
    rewrite (append_to_field_absent _ _ d) by done.
    set (n := length (heap s)).
    set (d' := Dict.set "media" (VRef n) d).
    set (h1 := <[n:=OList [x]]> (<[l:=ODict d']> (heap s ++ [OList []]))).
    assert (Hlt : (l < n)%nat) by by eapply lookup_lt_Some.
    assert (Hl1 : h1 !! l = Some (ODict d')).
    { subst h1. rewrite list_lookup_insert_ne by lia.
      apply list_lookup_insert_eq. rewrite length_app. lia. }
    assert (Hn1 : h1 !! n = Some (OList [x])).
    { subst h1. apply list_lookup_insert_eq.
      rewrite length_insert, length_app. simpl. lia. }
    destruct (add_task_media_all_present task_id user_id l d' n ms [x]
                (mkState (_tasks s) h1))
      as (h' & Hrun & Hl' & Hm'); simpl; try done.
    + apply lookup_set_eq.
    + eexists. split; [exact Hrun|].
      apply (list_seen_run _ _ _ l d' n); try done. apply lookup_set_eq.
Qed.

Lemma add_task_media_appends_witness :
  exists s',
    add_task_media_all "t2" [VStr "a.png"; VRef 4%nat] "u" ex_three
    = (Ok tt, s')
    /\ list_seen "media" "t2" "u" s' = Some [VStr "a.png"; VRef 4%nat].
Proof.
  apply (proj2 (add_task_media_appends "t2" "u"
                  [VStr "a.png"; VRef 4%nat] ex_three)
           [("created_at", VStr "2024-01-02T00:00:00Z")]).
  - reflexivity.
  - reflexivity.
  - discriminate.
Defined.

(** X11: [add_task_step] with a payload that is not a dict raises
    [AttributeError] at its log line, after the payload has been appended:
    the call fails and the step is recorded all the same. *)
Theorem add_task_step_logs_after_append task_id user_id x s :
  is_dict_ref (heap s) x = false ->
  (forall old, steps_seen task_id user_id s = Some old ->
     exists s', add_task_step task_id x user_id s = (Raise AttributeError, s')
                /\ steps_seen task_id user_id s' = Some (old ++ [x]))
  /\ (forall r, get_task task_id user_id s = (Ok (Some r), s) ->
       Dict.lookup "steps" r = None ->
       exists s', add_task_step task_id x user_id s
                  = (Raise AttributeError, s')
                  /\ steps_seen task_id user_id s' = Some [x]).
Proof.
  intros Hx. split.
  - intros old (l & d & m & Hr & Hl & Hf & Hm)%steps_seen_inv.
    unfold add_task_step. rewrite (guarded_run _ _ _ _ (VRef l)) by done.
    rewrite bind_run, (append_to_field_present _ _ d m old) by done.
    set (s1 := mkState (_tasks s) (<[m:=OList (old ++ [x])]> (heap s))).
    assert (Hlm : l <> m) by congruence.
    exists s1. split.
    + rewrite bind_run. unfold dict_get, as_dict. rewrite !bind_run. simpl.
      unfold is_dict_ref, deref in Hx.
      destruct x as [| | | |q]; try done.
      destruct (decide (q = m)) as [->|Hq].
      * by rewrite (heap_insert_eq _ _ (OList old)).
      * rewrite list_lookup_insert_ne by done.
        by destruct (heap s !! q) as [[| |]|].
    + apply (steps_seen_run _ _ l d m); try done; simpl.
      * by rewrite list_lookup_insert_ne.
      * by eapply heap_insert_eq.
  - intros r (l & d & Hr & Hl & -> & _)%get_task_inv Hf.
    rewrite lookup_filter_agent in Hf.
    change (String.eqb "steps" "agent") with false in Hf. cbv iota in Hf.
    unfold add_task_step. rewrite (guarded_run _ _ _ _ (VRef l)) by done.
    rewrite bind_run, (append_to_field_absent _ _ d) by done.
    set (n := length (heap s)).
    set (d' := Dict.set "steps" (VRef n) d).
    set (h1 := <[n:=OList [x]]> (<[l:=ODict d']> (heap s ++ [OList []]))).
    assert (Hlt : (l < n)%nat) by by eapply lookup_lt_Some.
    assert (Hl1 : h1 !! l = Some (ODict d')).
    { subst h1. rewrite list_lookup_insert_ne by lia.
      apply list_lookup_insert_eq. rewrite length_app. lia. }
    assert (Hn1 : h1 !! n = Some (OList [x])).
    { subst h1. apply list_lookup_insert_eq.
      rewrite length_insert, length_app. simpl. lia. }
    exists (mkState (_tasks s) h1). split.
    + rewrite bind_run. unfold dict_get, as_dict. rewrite !bind_run. simpl.
      unfold is_dict_ref, deref in Hx.
      destruct x as [| | | |q]; try done.
      destruct (decide (q = n)) as [->|Hq]; [by rewrite Hn1|].
      subst h1. rewrite list_lookup_insert_ne by done.
      destruct (decide (q = l)) as [->|Hql]; [by rewrite Hl in Hx|].
      rewrite list_lookup_insert_ne by done.
      destruct (decide (q < n)%nat) as [Hlt'|Hge].
      * rewrite lookup_app_l by done.
        by destruct (heap s !! q) as [[| |]|].
      * rewrite lookup_ge_None_2; [done|].
        rewrite length_app. simpl. subst n. lia.
    + apply (steps_seen_run _ _ l d' n); try done. apply lookup_set_eq.
Qed.

Lemma add_task_step_logs_after_append_witness :
  exists s',
    add_task_step "t1" (VStr "clicked") "u" ex_stepped
    = (Raise AttributeError, s')
    /\ steps_seen "t1" "u" s' = Some [VRef 4%nat; VStr "clicked"].
Proof.
  apply (proj1 (add_task_step_logs_after_append "t1" "u" (VStr "clicked")
                  ex_stepped eq_refl) [VRef 4%nat]).
  reflexivity.
Defined.

(** X12: when the record of an existing task has under "steps" (or under
    "media") something that is not a list, [add_task_step] (or
    [add_task_media]) raises [AttributeError] and the state is as it
    was. *)
Theorem append_needs_a_list task_id user_id x l d v s :
  record_of (_tasks s) task_id user_id = Some (VRef l) ->
  heap s !! l = Some (ODict d) ->
  is_list_ref (heap s) v = false ->
  (Dict.lookup "steps" d = Some v ->
   add_task_step task_id x user_id s = (Raise AttributeError, s))
  /\ (Dict.lookup "media" d = Some v ->
      add_task_media task_id x user_id s = (Raise AttributeError, s)).
Proof.
  intros Hr Hl Hv.
  assert (Happ : forall field, Dict.lookup field d = Some v ->
            append_to_field field (VRef l) x s = (Raise AttributeError, s)).
  { intros field Hf. unfold append_to_field.
    rewrite bind_run, (as_dict_run _ _ d) by done.
    unfold Dict.mem. rewrite Hf, bind_run. simpl.
    rewrite bind_run, (getitem_run _ d _ v) by done.
    unfold list_append. rewrite bind_run. simpl.
    unfold is_list_ref, deref in Hv.
    destruct v as [| | | |m]; try done.
    by destruct (heap s !! m) as [[| |]|]. }
  split; intros Hf.
  - unfold add_task_step. rewrite (guarded_run _ _ _ _ (VRef l)) by done.
    by rewrite bind_run, Happ.
  - rewrite (add_task_media_run _ _ _ l) by done. by apply Happ.
Qed.

Lemma append_needs_a_list_witness :
  add_task_media "t" (VStr "a.png") "u" ex_odd_media
  = (Raise AttributeError, ex_odd_media).
Proof.
  exact (proj2 (append_needs_a_list "t" "u" (VStr "a.png") 0%nat
                  [("media", VStr "none")] (VStr "none") ex_odd_media
                  eq_refl eq_refl eq_refl) eq_refl).
Defined.

(** ** What no call does *)

(** X13: a mutator, whether it returns or raises, leaves the two-level
    mapping as it was: no task and no user appears or disappears, and
    each task id keeps its record object. *)
Theorem mutators_keep_the_mapping m task_id user_id s :
  let s' := (mutate m task_id user_id s).2 in
  _tasks s' = _tasks s
  /\ (forall t u, (task_exists t u s').1 = (task_exists t u s).1)
  /\ (forall u, namespace u s' = namespace u s).
Proof.
  intros s'. subst s'.
  destruct (frame_mutate m task_id user_id s) as [Ht _].
  split; [exact Ht|]. split.
  - intros t u. by rewrite !task_exists_run, Ht.
  - intros u. unfold namespace. by rewrite Ht.
Qed.

Lemma obj_grows_refl o : obj_grows o o.
Proof. destruct o; simpl; [done| |done]. exists []. by rewrite app_nil_r. Qed.

Lemma obj_grows_trans o1 o2 o3 :
  obj_grows o1 o2 -> obj_grows o2 o3 -> obj_grows o1 o3.
Proof.
  destruct o1, o2, o3; simpl; try done.
  - auto.
  - intros [ys ->] [zs ->]. exists (ys ++ zs). by rewrite app_assoc.
  - congruence.
Qed.

Lemma heap_grows_refl s : heap_grows s s.
Proof. intros l o Hl. exists o. split; [done|apply obj_grows_refl]. Qed.

Lemma heap_grows_same s s' : heap s' = heap s -> heap_grows s s'.
Proof.
  intros Hh l o Hl. exists o. rewrite Hh.
  split; [done|apply obj_grows_refl].
Qed.

Lemma heap_grows_trans s1 s2 s3 :
  heap_grows s1 s2 -> heap_grows s2 s3 -> heap_grows s1 s3.
Proof.
  intros H12 H23 l o Hl.
  destruct (H12 l o Hl) as (o2 & Hl2 & Hg2).
  destruct (H23 l o2 Hl2) as (o3 & Hl3 & Hg3).
  exists o3. split; [done|]. by eapply obj_grows_trans.
Qed.

Lemma heap_grows_pure {A} (m : M A) s : pure_M m -> heap_grows s (m s).2.
Proof. intros ->. apply heap_grows_refl. Qed.

Lemma heap_grows_bind {A B} (m : M A) (f : A -> M B) s :
  heap_grows s (m s).2 ->
  (forall a, (m s).1 = Ok a -> heap_grows (m s).2 (f a (m s).2).2) ->
  heap_grows s ((m ≫= f) s).2.
Proof.
  intros Hm Hf. rewrite bind_run.
  destruct (m s) as [[a|e] s'] eqn:E; simpl in *; [|done].
  eapply heap_grows_trans; [exact Hm|]. by apply Hf.
Qed.

Lemma heap_grows_store l o o' s :
  heap s !! l = Some o -> obj_grows o o' ->
  heap_grows s (store_obj l o' s).2.
Proof.
  intros Hl Hg l' o0 Hl'. simpl.
  destruct (decide (l = l')) as [<-|Hne].
  - exists o'. split; [by eapply heap_insert_eq|]. congruence.
  - exists o0. split; [by rewrite list_lookup_insert_ne|].
    apply obj_grows_refl.
Qed.

Lemma heap_grows_alloc o s : heap_grows s (alloc o s).2.
Proof.
  intros l o0 Hl. simpl. exists o0.
  split; [|apply obj_grows_refl].
  rewrite lookup_app_l; [done|]. by eapply lookup_lt_Some.
Qed.

Lemma mem_set_mono (d : dict) k v k' :
  Dict.mem k' d = true -> Dict.mem k' (Dict.set k v d) = true.
Proof.
  unfold Dict.mem. destruct (String.eqb_spec k k') as [->|Hne].
  - by rewrite lookup_set_eq.
  - by rewrite lookup_set_ne.
Qed.

Lemma mem_update_mono (d2 : dict) k : forall d : dict,
  Dict.mem k d = true -> Dict.mem k (Dict.update d d2) = true.
Proof.
  unfold Dict.update.
  induction d2 as [|[k' v'] d2 IH]; intros d Hm; simpl; [done|].
  by apply IH, mem_set_mono.
Qed.

Lemma as_dict_inv e v s l d s' :
  as_dict e v s = (Ok (l, d), s') ->
  v = VRef l /\ heap s !! l = Some (ODict d) /\ s' = s.
Proof.
  unfold as_dict. rewrite bind_run. simpl.
  destruct v as [| | | |l0]; try done.
  destruct (heap s !! l0) as [[d0| |]|] eqn:E; try done.
  by intros [= <- <- <-].
Qed.

Lemma heap_grows_setitem v k x s : heap_grows s (setitem v k x s).2.
Proof.
  unfold setitem. rewrite bind_run.
  destruct (as_dict TypeError v s) as [[[l d]|e] s'] eqn:Ha.
  - apply as_dict_inv in Ha as (-> & Hl & ->).
    apply (heap_grows_store _ (ODict d)); [done|].
    simpl. intros k'. apply mem_set_mono.
  - pose proof (pure_as_dict TypeError v s) as Hp. rewrite Ha in Hp.
    simpl in *. subst. apply heap_grows_refl.
Qed.

Lemma heap_grows_list_append v x s : heap_grows s (list_append v x s).2.
Proof.
  unfold list_append. rewrite bind_run. simpl.
  destruct v as [| | | |m]; try apply heap_grows_refl.
  destruct (heap s !! m) as [[|xs|]|] eqn:Hm; try apply heap_grows_refl.
  apply (heap_grows_store _ (OList xs)); [done|]. simpl. eauto.
Qed.

Lemma heap_grows_append_to_field field task x s :
  heap_grows s (append_to_field field task x s).2.
Proof.
  unfold append_to_field.
  apply heap_grows_bind; [apply heap_grows_pure, pure_as_dict|].
  intros [l d] _. apply heap_grows_bind.
  { destruct (Dict.mem field d); [apply heap_grows_refl|].
    apply heap_grows_bind; [apply heap_grows_alloc|].
    intros n _. apply heap_grows_setitem. }
  intros [] _. apply heap_grows_bind.
  { apply heap_grows_pure. unfold getitem.
    apply pure_bind; [apply pure_as_dict|]. intros [? d0].
    destruct (Dict.lookup field d0); [apply pure_ret|apply pure_raise]. }
  intros xs _. apply heap_grows_list_append.
Qed.

Lemma heap_grows_mutate m task_id user_id s :
  heap_grows s (mutate m task_id user_id s).2.
Proof.
  destruct (record_of (_tasks s) task_id user_id) as [task|] eqn:Hr.
  2:{ rewrite mutate_not_found by done. apply heap_grows_refl. }
  destruct m; simpl;
    unfold update_task, update_task_status, add_task_step, add_task_media,
      set_task_agent, set_task_output, set_task_error, mark_task_finished;
    rewrite (guarded_run _ _ _ _ task) by done.
  - rewrite bind_run.
    destruct (as_dict AttributeError task s) as [[[l d]|e] s1] eqn:Ha.
    2:{ pose proof (pure_as_dict AttributeError task s) as Hp.
        rewrite Ha in Hp. simpl in *. subst. apply heap_grows_refl. }
    apply as_dict_inv in Ha as (-> & Hl & ->).
    rewrite bind_run.
    destruct (as_dict TypeError update_data s) as [[[l2 d2]|e] s1] eqn:Hb.
    2:{ pose proof (pure_as_dict TypeError update_data s) as Hp.
        rewrite Hb in Hp. simpl in *. subst. apply heap_grows_refl. }
    apply as_dict_inv in Hb as (-> & Hl2 & ->).
    apply (heap_grows_store _ (ODict d)); [done|].
    simpl. intros k. apply mem_update_mono.
  - apply heap_grows_setitem.
  - apply heap_grows_bind; [apply heap_grows_append_to_field|]. intros [] _.
    apply heap_grows_bind; [|intros; apply heap_grows_refl].
    apply heap_grows_pure, pure_dict_get.
  - apply heap_grows_append_to_field.
  - apply heap_grows_setitem.
  - apply heap_grows_setitem.
  - apply heap_grows_setitem.
  - apply heap_grows_bind; [apply heap_grows_setitem|]. intros [] _.
    apply heap_grows_setitem.
Qed.

(** X14: no call of any method, returning or raising, removes an object,
    removes a key from a dict, or removes or reorders the entries of a
    list: a steps or media list can only get longer at its end. *)
Theorem objects_only_grow c user_id s :
  heap_grows s (state_after c user_id s).
Proof.
  destruct c as [t v|t|t|pg pp|t|t|t m]; unfold state_after.
  - rewrite create_task_run. by apply heap_grows_same.
  - apply heap_grows_pure, pure_get_task.
  - rewrite delete_task_run.
    destruct (record_of (_tasks s) t user_id); by apply heap_grows_same.
  - apply heap_grows_pure, pure_list_tasks.
  - apply heap_grows_pure, pure_task_exists.
  - apply heap_grows_pure, pure_get_task_agent.
  - apply heap_grows_mutate.
Qed.

Section distinct.
Context {V : Type}.
Implicit Types (k : string) (d : list (string * V)).

Lemma keys_alter f k d : Dict.keys (Dict.alter f k d) = Dict.keys d.
Proof.
  unfold Dict.keys. induction d as [|[k' v'] d IH]; simpl; [done|].
  destruct (String.eqb k' k); simpl; [done|]. by rewrite IH.
Qed.

Lemma NoDup_keys_set k v d :
  NoDup (Dict.keys d) -> NoDup (Dict.keys (Dict.set k v d)).
Proof.
  intros Hnd. destruct (Dict.mem k d) eqn:E.
  - by rewrite keys_set_present.
  - rewrite keys_set_absent by done.
    apply NoDup_app. split; [done|]. split; [|apply NoDup_singleton].
    intros x Hx ->%list_elem_of_singleton.
    apply mem_false, lookup_None_keys in E.
    by apply E, list_elem_of_In.
Qed.

Lemma keys_remove_sub k d x :
  In x (Dict.keys (Dict.remove k d)) -> In x (Dict.keys d).
Proof.
  unfold Dict.keys. induction d as [|[k' v'] d IH]; simpl; [done|].
  destruct (String.eqb k' k); simpl; [tauto|].
  intros [->|H]; [by left|right; by apply IH].
Qed.

Lemma NoDup_keys_remove k d :
  NoDup (Dict.keys d) -> NoDup (Dict.keys (Dict.remove k d)).
Proof.
  unfold Dict.keys. induction d as [|[k' v'] d IH]; simpl; [done|].
  intros [Hnotin Hnd]%NoDup_cons.
  destruct (String.eqb k' k); simpl; [done|].
  apply NoDup_cons. split; [|by apply IH].
  rewrite list_elem_of_In. intros Hin%keys_remove_sub.
  by apply Hnotin, list_elem_of_In.
Qed.
End distinct.

Lemma Forall_alter (P : string * list (string * value) -> Prop) f k
    (ts : store) :
  (forall k' ud, P (k', ud) -> P (k', f ud)) ->
  Forall P ts -> Forall P (Dict.alter f k ts).
Proof.
  intros Hf. induction 1 as [|[k' ud] ts Hx Hts IH]; simpl; [constructor|].
  destruct (String.eqb k' k); constructor; auto.
Qed.

Lemma Forall_set_empty (P : string * list (string * value) -> Prop) k
    (ts : store) :
  (forall k', P (k', [])) -> Forall P ts -> Forall P (Dict.set k [] ts).
Proof.
  intros Hk. induction 1 as [|[k' ud] ts Hx Hts IH]; simpl.
  - by repeat constructor.
  - destruct (String.eqb k' k); constructor; auto.
Qed.

(** X15: every call keeps user ids distinct and the task ids of each user
    distinct, as they are in the empty store. *)
Theorem ids_stay_distinct c user_id s :
  distinct_ids InMemoryTaskStorage
  /\ (distinct_ids (_tasks s) ->
      distinct_ids (_tasks (state_after c user_id s))).
Proof.
  split; [split; constructor|].
  intros [Hu Ht].
  destruct c as [t v|t|t|pg pp|t|t|t m]; unfold state_after.
  - rewrite create_task_run. simpl. split.
    + rewrite keys_alter.
      destruct (Dict.mem user_id (_tasks s)); [done|].
      by apply NoDup_keys_set.
    + apply Forall_alter.
      { intros k' ud. simpl. apply NoDup_keys_set. }
      destruct (Dict.mem user_id (_tasks s)); [done|].
      apply Forall_set_empty; [|done]. intros k'. constructor.
  - by rewrite pure_get_task.
  - rewrite delete_task_run.
    destruct (record_of (_tasks s) t user_id); [|done]. simpl. split.
    + by rewrite keys_alter.
    + apply Forall_alter; [|done].
      intros k' ud. simpl. apply NoDup_keys_remove.
  - by rewrite pure_list_tasks.
  - by rewrite pure_task_exists.
  - by rewrite pure_get_task_agent.
  - destruct (frame_mutate m t user_id s) as [-> _]. by split.
Qed.

Lemma ids_stay_distinct_witness :
  distinct_ids (_tasks (state_after (CreateTask "t" VNone) "u" ex_empty)).
Proof.
  apply (proj2 (ids_stay_distinct (CreateTask "t" VNone) "u" ex_empty)).
  split; constructor.
Defined.

(** ** Pages *)

Lemma sorted_reverse_eq {A} (key : A -> string) l :
  sorted_ true (map (decorate key) l) = Ok (rev (isort key (rev l))).
Proof.
  unfold sorted_. rewrite <- map_rev, sort_asc_decorated. simpl.
  unfold mret, result_ret. f_equal.
  rewrite <- map_rev, map_map. simpl. apply map_id.
Qed.

Lemma ltb_irrefl (a : string) : String.ltb a a = false.
Proof. unfold String.ltb. by rewrite compare_refl. Qed.

Section stable.
Context {A : Type} (key : A -> string) (c : string).
Local Abbreviation keep := (fun x : A => String.eqb (key x) c).

Lemma filter_ins x l :
  List.filter keep (ins key x l)
  = if String.eqb (key x) c then x :: List.filter keep l
    else List.filter keep l.
Proof.
  induction l as [|y l IH]; simpl; [done|].
  destruct (String.ltb (key y) (key x)) eqn:Hlt; simpl; [|done].
  rewrite IH.
  destruct (String.eqb_spec (key x) c) as [Hx|Hx]; [|done].
  destruct (String.eqb_spec (key y) c) as [Hy|Hy]; [|done].
  rewrite Hx, Hy, ltb_irrefl in Hlt. discriminate.
Qed.

Lemma filter_isort l :
  List.filter keep (isort key l) = List.filter keep l.
Proof.
  induction l as [|x l IH]; simpl; [done|].
  rewrite filter_ins, IH. by destruct (String.eqb (key x) c).
Qed.

Lemma filter_sorted_reverse l :
  List.filter keep (rev (isort key (rev l))) = List.filter keep l.
Proof. by rewrite filter_rev, filter_isort, filter_rev, rev_involutive. Qed.
End stable.

Lemma sorted_tasks_facts (h : heap_t) (user_tasks : list (string * value)) :
  let sorted_tasks :=
    rev (isort (created_at_of h) (rev user_tasks)) in
  sorted_ true (map (decorate (created_at_of h)) user_tasks)
  = Ok sorted_tasks
  /\ Permutation sorted_tasks user_tasks
  /\ StronglySorted (newest_first h) sorted_tasks.
Proof.
  intros sorted_tasks. split; [apply sorted_reverse_eq|]. split.
  - subst sorted_tasks.
    rewrite <- Permutation_rev, isort_perm. symmetry. apply Permutation_rev.
  - apply (StronglySorted_rev (created_at_of h)), isort_sorted.
Qed.

(** X16: among tasks that have the same "created_at" string, the missing
    ones counting as the empty string, [list_tasks] keeps the order of
    creation: the sort is stable although it is descending. *)
Theorem list_tasks_keeps_order_of_ties user_id page per_page user_tasks s :
  Dict.lookup user_id (_tasks s) = Some user_tasks ->
  Forall (fun x => string_keyed (heap s) x = true) user_tasks ->
  exists sorted_tasks,
    list_tasks user_id page per_page s
    = (Ok {| tasks := map (summary_at (heap s))
                        (py_slice ((page - 1) * per_page)
                                  ((page - 1) * per_page + per_page)
                                  sorted_tasks);
             total := length user_tasks;
             page := page; per_page := per_page |}, s)
    /\ StronglySorted (newest_first (heap s)) sorted_tasks
    /\ forall c, created_at_is (heap s) c sorted_tasks
                 = created_at_is (heap s) c user_tasks.
Proof.
  intros Hu Hk.
  destruct (sorted_tasks_facts (heap s) user_tasks) as (Hsort & Hperm & Hss).
  eexists. split; [|split; [exact Hss|]].
  - apply (list_tasks_run _ _ _ user_tasks); try done.
    rewrite Forall_forall in *. intros x Hx. apply Hk. by rewrite <- Hperm.
  - intros c. apply filter_sorted_reverse.
Qed.

Lemma list_tasks_keeps_order_of_ties_witness :
  exists sorted_tasks,
    list_tasks "u" 1 5 ex_ties
    = (Ok {| tasks := map (summary_at (heap ex_ties))
                        (py_slice ((1 - 1) * 5) ((1 - 1) * 5 + 5)
                                  sorted_tasks);
             total := 4; page := 1; per_page := 5 |}, ex_ties)
    /\ StronglySorted (newest_first (heap ex_ties)) sorted_tasks
    /\ created_at_is (heap ex_ties) "2024-01-01T00:00:00Z" sorted_tasks
       = [("a", VRef 0%nat); ("c", VRef 2%nat)]
    /\ created_at_is (heap ex_ties) "" sorted_tasks
       = [("b", VRef 1%nat); ("d", VRef 3%nat)].
Proof.
  destruct (list_tasks_keeps_order_of_ties "u" 1 5
              [("a", VRef 0%nat); ("b", VRef 1%nat); ("c", VRef 2%nat);
               ("d", VRef 3%nat)] ex_ties eq_refl)
    as (sorted_tasks & Hrun & Hsorted & Hties).
  - repeat constructor.
  - exists sorted_tasks. split; [exact Hrun|]. split; [exact Hsorted|].
    split; apply Hties.
Defined.

Lemma page_tasks_run user_id page per_page user_tasks sorted_tasks s :
  Dict.lookup user_id (_tasks s) = Some user_tasks ->
  Forall (fun x => string_keyed (heap s) x = true) user_tasks ->
  sorted_ true (map (decorate (created_at_of (heap s))) user_tasks)
  = Ok sorted_tasks ->
  Permutation sorted_tasks user_tasks ->
  1 <= page -> 0 <= per_page ->
  page_tasks user_id page per_page s
  = map (summary_at (heap s))
      (take (Z.to_nat per_page)
         (drop (Z.to_nat (page - 1) * Z.to_nat per_page) sorted_tasks)).
Proof.
  intros Hu Hk Hsort Hperm Hp Hpp. unfold page_tasks.
  rewrite (list_tasks_run _ _ _ user_tasks sorted_tasks) by
    (try done; rewrite Forall_forall in *; intros x Hx; apply Hk;
     by rewrite <- Hperm).
  simpl. rewrite py_slice_forward by nia. do 3 f_equal. nia.
Qed.

(** X17: with per_page >= 1, the pages 1, 2, ..., n of [list_tasks] put
    end to end are the first n * per_page tasks of the sorted order: no
    task is skipped and none comes twice; once n * per_page reaches the
    count they are all the user's tasks. *)
Theorem pages_cover_all_tasks user_id per_page user_tasks s :
  Dict.lookup user_id (_tasks s) = Some user_tasks ->
  Forall (fun x => string_keyed (heap s) x = true) user_tasks ->
  1 <= per_page ->
  exists sorted_tasks,
    Permutation sorted_tasks user_tasks
    /\ (forall n,
          pages_upto user_id per_page n s
          = map (summary_at (heap s))
              (take (n * Z.to_nat per_page) sorted_tasks))
    /\ (forall n,
          (length user_tasks <= n * Z.to_nat per_page)%nat ->
          pages_upto user_id per_page n s
          = map (summary_at (heap s)) sorted_tasks).
Proof.
  intros Hu Hk Hpp.
  destruct (sorted_tasks_facts (heap s) user_tasks) as (Hsort & Hperm & _).
  set (sorted_tasks := rev (isort (created_at_of (heap s)) (rev user_tasks)))
    in *.
  assert (Hall : forall n,
            pages_upto user_id per_page n s
            = map (summary_at (heap s))
                (take (n * Z.to_nat per_page) sorted_tasks)).
  { induction n as [|n IH]; [done|].
    unfold pages_upto in *. rewrite seq_S, flat_map_app, IH. simpl.
    rewrite app_nil_r.
    rewrite (page_tasks_run _ _ _ user_tasks sorted_tasks) by (try done; lia).
    rewrite <- map_app. f_equal.
    replace (Z.to_nat (Z.of_nat (S n) - 1)) with n by lia.
    rewrite take_take_drop. f_equal. lia. }
  exists sorted_tasks. split; [done|]. split; [exact Hall|].
  intros n Hn. rewrite Hall, take_ge; [done|].
  by rewrite (Permutation_length Hperm).
Qed.

Lemma pages_cover_all_tasks_witness :
  exists sorted_tasks,
    Permutation sorted_tasks
      [("t1", VRef 0%nat); ("t2", VRef 2%nat); ("t3", VRef 3%nat)]
    /\ (forall n,
          pages_upto "u" 2 n ex_three
          = map (summary_at (heap ex_three))
              (take (n * Z.to_nat 2) sorted_tasks))
    /\ (forall n,
          (length [("t1", VRef 0%nat); ("t2", VRef 2%nat);
                   ("t3", VRef 3%nat)] <= n * Z.to_nat 2)%nat ->
          pages_upto "u" 2 n ex_three
          = map (summary_at (heap ex_three)) sorted_tasks).
Proof.
  apply (pages_cover_all_tasks "u" 2
           [("t1", VRef 0%nat); ("t2", VRef 2%nat); ("t3", VRef 3%nat)]
           ex_three eq_refl).
  - repeat constructor.
  - lia.
Defined.

(** ** The answer of [list_tasks], whatever the records are *)

Section any_keys.
Context {A : Type}.

Lemma insert_asc_perm (x : value * A) l r :
  insert_asc x l = Ok r -> Permutation r (x :: l).
Proof.
  revert r. induction l as [|y l IH]; intros r; simpl.
  - by intros [= <-].
  - destruct (py_lt y.1 x.1) as [[|]|]; simpl; try done.
    + destruct (insert_asc x l) as [r'|]; simpl; [|done].
      intros [= <-]. rewrite (IH r') by done. apply perm_swap.
    + by intros [= <-].
Qed.

Lemma sort_asc_perm (l r : list (value * A)) :
  sort_asc l = Ok r -> Permutation r l.
Proof.
  revert r. induction l as [|x l IH]; intros r; simpl.
  - by intros [= <-].
  - destruct (sort_asc l) as [r'|]; simpl; [|done].
    intros Hins%insert_asc_perm. rewrite Hins. constructor. by apply IH.
Qed.

End any_keys.










(** ** Finishing *)

(** X19: [mark_task_finished] on an existing task writes "status" and
    "finished_at" and nothing else: every other field, the agent and the
    mapping are as they were. *)
Theorem mark_task_finished_keeps_the_rest task_id user_id status now l d s :
  record_of (_tasks s) task_id user_id = Some (VRef l) ->
  heap s !! l = Some (ODict d) ->
  exists s' r r0,
    mark_task_finished task_id user_id status now s = (Ok tt, s')
    /\ _tasks s' = _tasks s
    /\ get_task task_id user_id s = (Ok (Some r0), s)
    /\ get_task task_id user_id s' = (Ok (Some r), s')
    /\ (forall k, k <> "status" -> k <> "finished_at" ->
          Dict.lookup k r = Dict.lookup k r0)
    /\ (get_task_agent task_id user_id s').1
       = (get_task_agent task_id user_id s).1.
Proof.
  intros Hr Hl.
  set (d1 := Dict.set "status" (VStr status) d).
  set (d2 := Dict.set "finished_at" (VStr (isoformat now +:+ "Z")) d1).
  set (s' := mkState (_tasks s) (<[l:=ODict d2]> (<[l:=ODict d1]> (heap s)))).
  assert (Hl' : heap s' !! l = Some (ODict d2)).
  { simpl. eapply heap_insert_eq, heap_insert_eq, Hl. }
  exists s', (List.filter not_agent d2), (List.filter not_agent d).
  split; [|split; [done|split; [|split; [|split]]]].
  - unfold mark_task_finished. rewrite (guarded_run _ _ _ _ (VRef l)) by done.
    rewrite bind_run, (setitem_run _ d) by done.
    rewrite (setitem_run _ d1); [done|]. simpl. by eapply heap_insert_eq.
  - by apply (get_task_run _ _ l).
  - by apply (get_task_run _ _ l).
  - intros k Hk1 Hk2. rewrite !lookup_filter_agent.
    destruct (String.eqb k "agent"); [done|].
    unfold d2, d1. by rewrite !lookup_set_ne.
  - rewrite (get_task_agent_run _ _ l d2), (get_task_agent_run _ _ l d)
      by done.
    simpl. unfold d2, d1. by rewrite !lookup_set_ne.
Qed.

Lemma mark_task_finished_keeps_the_rest_witness :
  exists s' r r0,
    mark_task_finished "t1" "u" "failed" ex_now ex_three = (Ok tt, s')
    /\ _tasks s' = _tasks ex_three
    /\ get_task "t1" "u" ex_three = (Ok (Some r0), ex_three)
    /\ get_task "t1" "u" s' = (Ok (Some r), s')
    /\ (forall k, k <> "status" -> k <> "finished_at" ->
          Dict.lookup k r = Dict.lookup k r0)
    /\ (get_task_agent "t1" "u" s').1 = (get_task_agent "t1" "u" ex_three).1.
Proof.
  exact (mark_task_finished_keeps_the_rest "t1" "u" "failed" ex_now 0%nat _
           ex_three eq_refl eq_refl).
Defined.

(** ** Records that are no dict, keys that are no string *)

Lemma as_dict_not_mapping e v s :
  not_a_mapping (heap s) v = true -> as_dict e v s = (Raise e, s).
Proof.
  unfold not_a_mapping, as_dict. rewrite bind_run. simpl.
  destruct v as [| | | |l]; try done.
  by destruct (heap s !! l) as [[| |]|].
Qed.

Lemma dict_get_total v k dflt s :
  (exists x, dict_get v k dflt s = (Ok x, s))
  \/ dict_get v k dflt s = (Raise AttributeError, s).
Proof.
  unfold dict_get, as_dict. rewrite !bind_run. simpl.
  destruct v as [| | | |l]; try by right.
  destruct (heap s !! l) as [[d| |]|]; try by right.
  left. eauto.
Qed.

Lemma mapM_created_at_key_raises ud s t v :
  In (t, v) ud -> not_a_mapping (heap s) v = true ->
  mapM created_at_key ud s = (Raise AttributeError, s).
Proof.
  intros Hin Hv. induction ud as [|x ud IH]; [done|]. simpl.
  rewrite bind_run. unfold created_at_key at 1. rewrite bind_run.
  destruct Hin as [->|Hin].
  - unfold dict_get. rewrite bind_run. simpl.
    by rewrite as_dict_not_mapping.
  - destruct (dict_get_total x.2 "created_at" (VStr "") s) as [[k ->]| ->];
      [|done].
    simpl. by rewrite bind_run, IH.
Qed.

(** X20: [create_task] takes any value for a record.  When the record of
    a task is no mapping ([None], a number, a string, a list), the task
    exists, [get_task] and [get_task_agent] raise [AttributeError],
    [list_tasks] raises it for that user on every page, [update_task]
    raises it too and the other mutators raise [TypeError]; the state is
    as it was after each. *)
Theorem record_that_is_no_dict task_id user_id v s :
  record_of (_tasks s) task_id user_id = Some v ->
  not_a_mapping (heap s) v = true ->
  task_exists task_id user_id s = (Ok true, s)
  /\ get_task task_id user_id s = (Raise AttributeError, s)
  /\ get_task_agent task_id user_id s = (Raise AttributeError, s)
  /\ (forall page per_page,
        list_tasks user_id page per_page s = (Raise AttributeError, s))
  /\ (forall m,
        mutate m task_id user_id s
        = (Raise (match m with Update _ => AttributeError | _ => TypeError
                  end), s)).
Proof.
  intros Hr Hv.
  split; [by rewrite task_exists_run, Hr|]. split; [|split; [|split]].
  - unfold get_task, record_of in *. rewrite bind_run. simpl.
    destruct (Dict.lookup user_id (_tasks s)) as [ud|]; [|done].
    by rewrite Hr, bind_run, as_dict_not_mapping.
  - unfold get_task_agent.
    rewrite (guarded_run _ _ _ _ v) by done.
    unfold dict_get. by rewrite bind_run, as_dict_not_mapping.
  - intros page per_page. unfold list_tasks, record_of in *.
    rewrite bind_run. simpl.
    destruct (Dict.lookup user_id (_tasks s)) as [ud|] eqn:Hu; [|done].
    rewrite bind_run, (mapM_created_at_key_raises _ _ task_id v); try done.
    clear Hu. induction ud as [|[k' v'] ud IH]; simpl in *; [done|].
    destruct (String.eqb_spec k' task_id) as [->|Hne].
    + injection Hr as ->. by left.
    + right. by apply IH.
  - intros m. destruct m; simpl;
      unfold update_task, update_task_status, add_task_step, add_task_media,
        set_task_agent, set_task_output, set_task_error, mark_task_finished,
        append_to_field, setitem;
      rewrite (guarded_run _ _ _ _ v) by done;
      rewrite ?bind_run; by rewrite as_dict_not_mapping.
Qed.

Lemma record_that_is_no_dict_witness :
  get_task "t" "u" ex_no_record = (Raise AttributeError, ex_no_record)
  /\ list_tasks "u" 1 100 ex_no_record = (Raise AttributeError, ex_no_record)
  /\ mutate (SetStatus "running") "t" "u" ex_no_record
     = (Raise TypeError, ex_no_record).
Proof.
  pose proof (record_that_is_no_dict "t" "u" VNone ex_no_record
                eq_refl eq_refl) as (_ & Hget & _ & Hlist & Hmut).
  split; [exact Hget|]. split; [apply Hlist|apply (Hmut (SetStatus _))].
Defined.

Lemma py_lt_none a b x : py_lt a b = Ok x -> a <> VNone /\ b <> VNone.
Proof. by destruct a, b. Qed.

Lemma py_lt_raises a b e : py_lt a b = Raise e -> e = TypeError.
Proof.
  unfold py_lt. destruct a, b; simpl; try done; by intros [= <-].
Qed.

Section none_keys.
Context {A : Type}.
Implicit Types (l r : list (value * A)).

Lemma insert_asc_raises x l e : insert_asc x l = Raise e -> e = TypeError.
Proof.
  induction l as [|y l IH]; simpl; [done|].
  destruct (py_lt y.1 x.1) as [[|]|e'] eqn:E; simpl; try done.
  - destruct (insert_asc x l) as [r'|e'']; simpl; [done|].
    intros [= <-]. by apply IH.
  - intros [= <-]. by eapply py_lt_raises.
Qed.

Lemma sort_asc_raises l e : sort_asc l = Raise e -> e = TypeError.
Proof.
  induction l as [|x l IH]; simpl; [done|].
  destruct (sort_asc l) as [r'|e']; simpl.
  - apply insert_asc_raises.
  - intros [= <-]. by apply IH.
Qed.

Lemma insert_asc_head x y l r :
  insert_asc x (y :: l) = Ok r -> x.1 <> VNone /\ y.1 <> VNone.
Proof.
  simpl. destruct (py_lt y.1 x.1) as [b|] eqn:E; [|done].
  intros _. apply py_lt_none in E. tauto.
Qed.

Lemma sort_asc_no_none l r :
  sort_asc l = Ok r -> (2 <= length l)%nat ->
  Forall (fun p => p.1 <> VNone) l.
Proof.
  revert r. induction l as [|x l IH]; intros r; simpl; [lia|].
  destruct (sort_asc l) as [r'|] eqn:Hs; simpl; [|done].
  intros Hins Hlen.
  pose proof (sort_asc_perm _ _ Hs) as Hperm.
  destruct r' as [|y r'].
  { apply Permutation_length in Hperm. simpl in *. lia. }
  destruct (insert_asc_head _ _ _ _ Hins) as [Hx Hy].
  constructor; [done|].
  destruct l as [|z [|z' l]]; [simpl in *; lia| |].
  - symmetry in Hperm. apply Permutation_length_1_inv in Hperm.
    injection Hperm as -> _. by repeat constructor.
  - eapply IH; [done|]. simpl. lia.
Qed.
End none_keys.

Lemma mapM_created_at_key_run ud s :
  Forall (fun x => is_dict_ref (heap s) x.2 = true) ud ->
  mapM created_at_key ud s
  = (Ok (map (fun x => (sort_key_of (heap s) x, x)) ud), s).
Proof.
  intros H. apply mapM_run. eapply Forall_impl; [exact H|].
  intros [t v] (q & dq & Hv & Hq)%is_dict_ref_inv. simpl in Hv. subst v.
  unfold created_at_key, sort_key_of. simpl.
  by rewrite bind_run, (dict_get_run _ dq), Hq.
Qed.

(** X21: when a user has two tasks or more, all with dict records, and
    one of them has [None] under "created_at", [list_tasks] raises
    [TypeError] for that user on every page: [None] cannot be ordered
    against any other key. *)
Theorem none_timestamp_breaks_listing user_id user_tasks s :
  Dict.lookup user_id (_tasks s) = Some user_tasks ->
  Forall (fun x => is_dict_ref (heap s) x.2 = true) user_tasks ->
  (2 <= length user_tasks)%nat ->
  Exists (fun x => sort_key_of (heap s) x = VNone) user_tasks ->
  forall page per_page,
    list_tasks user_id page per_page s = (Raise TypeError, s).
Proof.
  intros Hu Hk Hlen Hnone page per_page.
  unfold list_tasks. rewrite bind_run. simpl.
  rewrite Hu, bind_run, mapM_created_at_key_run by done.
  rewrite bind_run. unfold lift at 1, sorted_.
  set (keyed := map (fun x => (sort_key_of (heap s) x, x)) user_tasks).
  destruct (sort_asc (rev keyed)) as [r|e] eqn:Hs; simpl.
  - exfalso. apply sort_asc_no_none in Hs.
    2:{ subst keyed. by rewrite length_rev, length_map. }
    apply Exists_exists in Hnone as (x & Hx & Hkey).
    rewrite Forall_forall in Hs.
    apply (Hs (sort_key_of (heap s) x, x)); [|done].
    apply list_elem_of_In, in_rev. rewrite rev_involutive.
    subst keyed. apply in_map_iff. exists x. split; [done|].
    by apply list_elem_of_In.
  - by rewrite (sort_asc_raises _ _ Hs).
Qed.

Lemma none_timestamp_breaks_listing_witness :
  list_tasks "u" 1 100 ex_none_key = (Raise TypeError, ex_none_key).
Proof.
  apply (none_timestamp_breaks_listing "u"
           [("t1", VRef 0%nat); ("t2", VRef 1%nat)] ex_none_key eq_refl).
  - repeat constructor.
  - simpl. lia.
  - apply Exists_cons_tl, Exists_cons_hd. reflexivity.
Defined.

(** ** The stamp and ISO 8601 *)

Ltac lia_div := zify; Z.to_euclidean_division_equations; lia.

Lemma is_digit_digit n : is_digit (digit n) = true.
Proof.
  unfold is_digit, digit. pose proof (Nat.mod_upper_bound n 10).
  rewrite nat_ascii_embedding by lia.
  apply andb_true_intro. split; apply Nat.leb_le; lia.
Qed.

Lemma digit_val_digit n : digit_val (digit n) = (n mod 10)%nat.
Proof.
  unfold digit_val, digit. pose proof (Nat.mod_upper_bound n 10).
  rewrite nat_ascii_embedding by lia. lia.
Qed.

Ltac run_template :=
  cbv -[digit is_digit digit_val Nat.div Nat.modulo Nat.mul Nat.add];
  rewrite ?is_digit_digit.

Lemma stamp_not_iso now : is_iso8601 (isoformat now +:+ "Z") = false.
Proof.
  unfold is_iso8601, isoformat.
  destruct (Nat.eqb (microsecond now) 0); run_template; reflexivity.
Qed.

Lemma isoformat_iso now : is_iso8601 (isoformat now) = true.
Proof.
  unfold is_iso8601, isoformat.
  destruct (Nat.eqb (microsecond now) 0); run_template; reflexivity.
Qed.

Lemma utc_z_stamp_iso now : is_iso8601 (utc_z_stamp now) = true.
Proof.
  unfold is_iso8601, utc_z_stamp.
  destruct (Nat.eqb (microsecond now) 0); run_template; reflexivity.
Qed.

Lemma in_range_bounds y mo d h mi sc us :
  in_range (mkDatetime y mo d h mi sc us) = true ->
  (Z.of_nat y <= 9999)%Z /\ (mo <= 12)%nat /\ (d <= 31)%nat /\ (h < 24)%nat
  /\ (mi < 60)%nat /\ (sc < 60)%nat /\ (Z.of_nat us < 1000000)%Z.
Proof.
  unfold in_range. simpl. rewrite !andb_true_iff.
  rewrite !Nat.leb_le, !Nat.ltb_lt, !Z.leb_le, Z.ltb_lt. tauto.
Qed.

Lemma read_isoformat now :
  in_range now = true -> read_iso (isoformat now) = Some now.
Proof.
  intros H. unfold read_iso. rewrite isoformat_iso.
  destruct now as [y mo d h mi sc us]. apply in_range_bounds in H.
  unfold isoformat. simpl microsecond.
  destruct (Nat.eqb_spec us 0) as [->|Hus];
    cbv -[digit is_digit digit_val Nat.div Nat.modulo Nat.mul Nat.add];
    rewrite !digit_val_digit; f_equal; f_equal; lia_div.
Qed.

Lemma read_utc_z_stamp now :
  in_range now = true -> read_iso (utc_z_stamp now) = Some now.
Proof.
  intros H. unfold read_iso. rewrite utc_z_stamp_iso.
  destruct now as [y mo d h mi sc us]. apply in_range_bounds in H.
  unfold utc_z_stamp. simpl microsecond.
  destruct (Nat.eqb_spec us 0) as [->|Hus];
    cbv -[digit is_digit digit_val Nat.div Nat.modulo Nat.mul Nat.add];
    rewrite !digit_val_digit; f_equal; f_equal; lia_div.
Qed.

Lemma last_char_app a b : b <> "" -> last_char (a +:+ b) = last_char b.
Proof.
  intros Hb. induction a as [|c a IH]; [done|].
  change (String c a +:+ b) with (String c (a +:+ b)). simpl. rewrite IH.
  destruct (a +:+ b) eqn:E; [|done].
  destruct a; [|done]. simpl in E. done.
Qed.

Lemma last_char_utc_z_stamp now : last_char (utc_z_stamp now) = Some "Z"%char.
Proof.
  unfold utc_z_stamp. rewrite !last_char_app; try done.
  all: by destruct (Nat.eqb (microsecond now) 0).
Qed.

(** ** What keeps the steps of a task *)













(** ** Ownership: what the calls of one user leave of another's records *)




















(** * The claims *)

(** C1: after [create_task(task_id, record, user_id)], [get_task(task_id,
    user_id)] returns the items of the record without the "agent" key (the
    record itself when it has none); and neither [get_task] nor any summary
    of [list_tasks] ever has an "agent" key. *)
Theorem get_after_create_minus_agent task_id user_id l d s :
  heap s !! l = Some (ODict d) ->
  let s1 := (create_task task_id (VRef l) user_id s).2 in
  get_task task_id user_id s1 = (Ok (Some (List.filter not_agent d)), s1)
  /\ (Dict.lookup "agent" d = None ->
      get_task task_id user_id s1 = (Ok (Some d), s1))
  /\ (forall k, k <> "agent" ->
        Dict.lookup k (List.filter not_agent d) = Dict.lookup k d)
  /\ (forall t u s0 r s', get_task t u s0 = (Ok (Some r), s') ->
        ~ In "agent" (Dict.keys r))
  /\ (forall u pg pp s0 r s', list_tasks u pg pp s0 = (Ok r, s') ->
        Forall (fun summary => ~ In "agent" (Dict.keys summary)) (tasks r)).
Proof.
  intros Hl s1.
  assert (Hget : get_task task_id user_id s1
                 = (Ok (Some (List.filter not_agent d)), s1)).
  { apply (get_task_run _ _ l); [apply record_of_create|].
    subst s1. by rewrite create_task_run. }
  split; [exact Hget|]. split; [|split; [|split]].
  - intros Hna. by rewrite Hget, filter_agent_absent.
  - intros k Hk. rewrite lookup_filter_agent.
    by apply String.eqb_neq in Hk as ->.
  - intros t u s0 r s'. unfold get_task. rewrite bind_run. simpl.
    destruct (Dict.lookup u (_tasks s0)) as [ud|]; [|done].
    destruct (Dict.lookup t ud) as [v|]; [|done].
    rewrite bind_run.
    destruct (as_dict AttributeError v s0) as [[[? items]|?] ?]; [|done].
    intros [= <- _]. apply filter_agent_keys.
  - intros u pg pp s0 r s'. unfold list_tasks. rewrite bind_run. simpl.
    destruct (Dict.lookup u (_tasks s0)) as [ud|].
    2:{ intros [= <- _]. constructor. }
    rewrite bind_run.
    destruct (mapM created_at_key ud s0) as [[keyed|?] s2]; [|done].
    rewrite bind_run. unfold lift at 1.
    destruct (sorted_ true keyed) as [sorted_tasks|?]; [|done].
    rewrite bind_run.
    destruct (mapM task_summary _ s2) as [[task_list|?] s3] eqn:Hm; [|done].
    intros [= <- _]. simpl.
    eapply mapM_Forall; [|exact Hm].
    intros x t a t' Hx. rewrite (task_summary_keys _ _ _ _ Hx).
    vm_compute. intuition discriminate.
Qed.

Lemma get_after_create_minus_agent_witness :
  get_task "t1" "u" (create_task "t1" (VRef 0%nat) "u" ex_empty).2
  = (Ok (Some [("status", VStr "created");
               ("created_at", VStr "2024-01-01T00:00:00Z")]),
     (create_task "t1" (VRef 0%nat) "u" ex_empty).2).
Proof.
  exact (proj1 (get_after_create_minus_agent "t1" "u" 0%nat _ ex_empty
                  eq_refl)).
Defined.

(** C2: on a pair that does not exist (whatever the user, the default one
    included) each of the eight mutators raises the not-found error, whose
    message spells out the task_id and the user_id, and the task still does
    not exist afterwards. *)
Theorem mutators_raise_not_found m task_id user_id s :
  task_exists task_id user_id s = (Ok false, s) ->
  let out := mutate m task_id user_id s in
  out.1 = Raise (KeyError ("Task " +:+ task_id +:+ " not found for user "
                           +:+ user_id))
  /\ task_exists task_id user_id out.2 = (Ok false, out.2)
  /\ get_task task_id user_id out.2 = (Ok None, out.2).
Proof.
  intros He out. apply task_exists_false in He as Hr.
  subst out. rewrite (mutate_not_found _ _ _ _ Hr). simpl.
  split; [done|]. split; [done|].
  unfold get_task, record_of in *. rewrite bind_run. simpl.
  destruct (Dict.lookup user_id (_tasks s)) as [ud|]; [|done].
  by rewrite Hr.
Qed.

Lemma mutators_raise_not_found_witness :
  (mutate (SetStatus "running") "t9" DEFAULT_USER_ID ex_three).1
  = Raise (KeyError "Task t9 not found for user default")
  /\ (mutate (AddStep (VRef 4%nat)) "t9" "u" ex_three).1
     = Raise (KeyError "Task t9 not found for user u").
Proof.
  split.
  - exact (proj1 (mutators_raise_not_found (SetStatus "running") "t9"
                    DEFAULT_USER_ID ex_three eq_refl)).
  - exact (proj1 (mutators_raise_not_found (AddStep (VRef 4%nat)) "t9"
                    "u" ex_three eq_refl)).
Defined.

(** C3, as amended: for a user whose records are dicts with "created_at"
    a string or absent, [list_tasks] returns the summaries of the Python
    slice [sorted[(page-1)*per_page : (page-1)*per_page + per_page]] of the
    user's tasks sorted by "created_at" from the greatest string down,
    with the count of all the user's tasks as total.  For page >= 1 and
    per_page >= 0 the slice is the per_page tasks after the first
    (page-1)*per_page; a page that starts at or past the count, and page
    0, give no task and no error.  Three tasks created with increasing
    timestamps come as the two newest, newest first, on page 1 of 2 per
    page, and the oldest alone on page 2. *)
Theorem list_tasks_sorted_page user_id page per_page user_tasks s :
  Dict.lookup user_id (_tasks s) = Some user_tasks ->
  Forall (fun x => string_keyed (heap s) x = true) user_tasks ->
  let start_idx := (page - 1) * per_page in
  let summary := summary_at (heap s) in
  let created_at := created_at_of (heap s) in
  (exists sorted_tasks,
     Permutation sorted_tasks user_tasks
     /\ StronglySorted (newest_first (heap s)) sorted_tasks
     /\ list_tasks user_id page per_page s
        = (Ok {| tasks := map summary
                            (py_slice start_idx (start_idx + per_page)
                                      sorted_tasks);
                 total := length user_tasks;
                 page := page; per_page := per_page |}, s)
     /\ (1 <= page -> 0 <= per_page ->
         py_slice start_idx (start_idx + per_page) sorted_tasks
         = take (Z.to_nat per_page) (drop (Z.to_nat start_idx) sorted_tasks))
     /\ (Z.of_nat (length user_tasks) <= start_idx
         \/ (page = 0 /\ 0 <= per_page) ->
         list_tasks user_id page per_page s
         = (Ok {| tasks := []; total := length user_tasks;
                  page := page; per_page := per_page |}, s)))
  /\ (forall x1 x2 x3,
        user_tasks = [x1; x2; x3] ->
        String.ltb (created_at x1) (created_at x2) = true ->
        String.ltb (created_at x2) (created_at x3) = true ->
        list_tasks user_id 1 2 s
        = (Ok {| tasks := [summary x3; summary x2]; total := 3;
                 page := 1; per_page := 2 |}, s)
        /\ list_tasks user_id 2 2 s
           = (Ok {| tasks := [summary x1]; total := 3;
                    page := 2; per_page := 2 |}, s)).
Proof.
  intros Hu Hk start_idx summary created_at. split.
  - destruct (sorted_reverse_decorated created_at user_tasks)
      as (r & Hsort & Hperm & Hsorted).
    assert (Hk' : Forall (fun x => string_keyed (heap s) x = true) r).
    { rewrite Forall_forall in *. intros x Hx. apply Hk.
      by rewrite <- Hperm. }
    pose proof (list_tasks_run user_id page per_page _ _ s Hu Hk Hsort Hk')
      as Hrun.
    exists r. split; [done|]. split; [exact Hsorted|]. split; [exact Hrun|].
    split.
    + intros Hpage Hpp. apply py_slice_forward; subst start_idx; nia.
    + intros Hout. rewrite Hrun. do 3 f_equal.
      fold start_idx. destruct Hout as [Hpast|[-> Hpp]].
      * rewrite py_slice_past_end; [done|].
        by rewrite (Permutation_length Hperm).
      * subst start_idx. by rewrite py_slice_page_zero.
  - intros x1 x2 x3 -> H12 H23.
    pose proof (sorted_three created_at x1 x2 x3 H12 H23) as Hsort.
    assert (Hk' : Forall (fun x => string_keyed (heap s) x = true)
                    [x3; x2; x1]).
    { apply Forall_cons in Hk as [H1 Hk]. apply Forall_cons in Hk as [H2 Hk].
      apply Forall_cons in Hk as [H3 _]. by repeat constructor. }
    split.
    + by rewrite (list_tasks_run user_id 1 2 _ _ s Hu Hk Hsort Hk').
    + by rewrite (list_tasks_run user_id 2 2 _ _ s Hu Hk Hsort Hk').
Qed.

Lemma list_tasks_sorted_page_witness :
  list_tasks "u" 1 2 ex_three
  = (Ok {| tasks :=
             [[("id", VStr "t3"); ("status", VStr "unknown");
               ("task", VStr "");
               ("created_at", VStr "2024-01-03T00:00:00Z");
               ("finished_at", VNone); ("live_url", VStr "/live/t3")];
              [("id", VStr "t2"); ("status", VStr "unknown");
               ("task", VStr "");
               ("created_at", VStr "2024-01-02T00:00:00Z");
               ("finished_at", VNone); ("live_url", VStr "/live/t2")]];
           total := 3; page := 1; per_page := 2 |}, ex_three)
  /\ list_tasks "u" 2 2 ex_three
     = (Ok {| tasks :=
                [[("id", VStr "t1"); ("status", VStr "created");
                  ("task", VStr "");
                  ("created_at", VStr "2024-01-01T00:00:00Z");
                  ("finished_at", VNone); ("live_url", VStr "/live/t1")]];
              total := 3; page := 2; per_page := 2 |}, ex_three).
Proof.
  refine (proj2 (list_tasks_sorted_page "u" 1 2
                   [("t1", VRef 0%nat); ("t2", VRef 2%nat);
                    ("t3", VRef 3%nat)] ex_three eq_refl _)
            _ _ _ eq_refl eq_refl eq_refl).
  repeat constructor.
Defined.

(** C3 as stated fails for a page below 0, which is out of range and yet
    is served: the bounds of the slice count from the end of the list. *)
Lemma negative_page_is_served :
  list_tasks "u" (-1) 2 ex_three
  = (Ok {| tasks :=
             [[("id", VStr "t3"); ("status", VStr "unknown");
               ("task", VStr "");
               ("created_at", VStr "2024-01-03T00:00:00Z");
               ("finished_at", VNone); ("live_url", VStr "/live/t3")]];
           total := 3; page := -1; per_page := 2 |}, ex_three)
  /\ tasks {| tasks :=
                [[("id", VStr "t3"); ("status", VStr "unknown");
                  ("task", VStr "");
                  ("created_at", VStr "2024-01-03T00:00:00Z");
                  ("finished_at", VNone); ("live_url", VStr "/live/t3")]];
              total := 3; page := -1; per_page := 2 |} <> [].
Proof. split; [reflexivity|discriminate]. Qed.






(** Without the separation the writes of one user show under the other:
    when one record object is filed under two users, a status set for
    "alice" is what "bob" gets. *)
Remark shared_record_crosses_users :
  "alice" <> "bob"
  /\ owned_apart "alice" "bob" [0; 1]%nat ex_shared = false
  /\ (get_task "t" "bob" ex_shared).1
     = Ok (Some [("status", VStr "created");
                 ("created_at", VStr "2024-01-01T00:00:00Z")])
  /\ (get_task "t" "bob"
        (state_after (Mutate "t" (SetStatus "running")) "alice"
           ex_shared)).1
     = Ok (Some [("status", VStr "running");
                 ("created_at", VStr "2024-01-01T00:00:00Z")]).
Proof. split; [discriminate|]. split; [reflexivity|]. split; reflexivity. Qed.

(** C6: on an existing task [mark_task_finished], called when the clock
    reads [now], succeeds, and afterwards [get_task] shows the given status
    ("finished" when none is given) under "status" and, under "finished_at",
    a string that ends in "Z".  The string is [now.isoformat()] followed by
    "Z".  [isoformat] alone is an ISO 8601 rendering of the reading, which
    reads back as [now]; but it ends in the offset "+00:00", so that the
    stamp carries two zone designators and is not ISO 8601.  It differs from
    the stamp of the specification, the reading followed by "Z" alone, which
    is ISO 8601 and reads back as [now]. *)
Theorem mark_task_finished_stamp_not_iso8601
    task_id user_id status now l d s :
  record_of (_tasks s) task_id user_id = Some (VRef l) ->
  heap s !! l = Some (ODict d) ->
  in_range now = true ->
  exists s' r stamp,
    mark_task_finished task_id user_id status now s = (Ok tt, s')
    /\ get_task task_id user_id s' = (Ok (Some r), s')
    /\ Dict.lookup "status" r = Some (VStr status)
    /\ Dict.lookup "finished_at" r = Some (VStr stamp)
    /\ stamp = isoformat now +:+ "Z"
    /\ last_char stamp = Some "Z"%char
    /\ is_iso8601 (isoformat now) = true
    /\ read_iso (isoformat now) = Some now
    /\ is_iso8601 stamp = false
    /\ read_iso stamp = None
    /\ stamp <> utc_z_stamp now
    /\ is_iso8601 (utc_z_stamp now) = true
    /\ read_iso (utc_z_stamp now) = Some now
    /\ last_char (utc_z_stamp now) = Some "Z"%char.
Proof.
  intros Hr Hl Hnow.
  set (d1 := Dict.set "status" (VStr status) d).
  set (d2 := Dict.set "finished_at" (VStr (isoformat now +:+ "Z")) d1).
  exists (mkState (_tasks s) (<[l:=ODict d2]> (<[l:=ODict d1]> (heap s)))),
    (List.filter not_agent d2), (isoformat now +:+ "Z").
  split.
  { unfold mark_task_finished. rewrite (guarded_run _ _ _ _ (VRef l)) by done.
    rewrite bind_run, (setitem_run _ d) by done.
    rewrite (setitem_run _ d1); [done|]. simpl. by eapply heap_insert_eq. }
  split.
  { apply (get_task_run _ _ l); [done|]. simpl.
    eapply heap_insert_eq, heap_insert_eq, Hl. }
  rewrite !lookup_filter_agent.
  split; [|split; [|split; [|split; [|split; [|split]]]]].
  - change (String.eqb "status" "agent") with false. cbv iota.
    unfold d2. rewrite lookup_set_ne by discriminate. apply lookup_set_eq.
  - change (String.eqb "finished_at" "agent") with false. cbv iota.
    apply lookup_set_eq.
  - reflexivity.
  - apply (last_char_snoc (isoformat now) "Z").
  - apply isoformat_iso.
  - by apply read_isoformat.
  - split; [apply stamp_not_iso|].
    split; [unfold read_iso; by rewrite stamp_not_iso|].
    split.
    + intros E. pose proof (utc_z_stamp_iso now) as Hz.
      rewrite <- E, stamp_not_iso in Hz. discriminate.
    + split; [apply utc_z_stamp_iso|].
      split; [by apply read_utc_z_stamp|apply last_char_utc_z_stamp].
Qed.

Lemma mark_task_finished_stamp_not_iso8601_witness :
  exists s' r stamp,
    mark_task_finished "t2" "u" "finished" ex_now ex_three = (Ok tt, s')
    /\ get_task "t2" "u" s' = (Ok (Some r), s')
    /\ Dict.lookup "status" r = Some (VStr "finished")
    /\ Dict.lookup "finished_at" r = Some (VStr stamp)
    /\ stamp = "2024-01-02T03:04:05.000006+00:00Z"
    /\ last_char stamp = Some "Z"%char
    /\ is_iso8601 "2024-01-02T03:04:05.000006+00:00" = true
    /\ read_iso "2024-01-02T03:04:05.000006+00:00" = Some ex_now
    /\ is_iso8601 stamp = false
    /\ read_iso stamp = None
    /\ stamp <> "2024-01-02T03:04:05.000006Z"
    /\ is_iso8601 "2024-01-02T03:04:05.000006Z" = true
    /\ read_iso "2024-01-02T03:04:05.000006Z" = Some ex_now
    /\ last_char "2024-01-02T03:04:05.000006Z" = Some "Z"%char.
Proof.
  exact (mark_task_finished_stamp_not_iso8601 "t2" "u" "finished" ex_now
           2%nat _ ex_three eq_refl eq_refl eq_refl).
Defined.

(** C7: for a user without tasks, never seen or left with an empty
    namespace, [list_tasks] returns no task, a total of 0 and the page and
    per_page it was given, whatever these are; and for a user whose
    records are dicts with "created_at" a string or absent it returns a
    page, with the count as total and the same echo, and never raises. *)
Theorem list_tasks_no_tasks user_id page per_page s :
  (Dict.lookup user_id (_tasks s) = None
   \/ Dict.lookup user_id (_tasks s) = Some [] ->
   list_tasks user_id page per_page s
   = (Ok {| tasks := []; total := 0; page := page; per_page := per_page |},
      s))
  /\ (forall user_tasks,
        Dict.lookup user_id (_tasks s) = Some user_tasks ->
        Forall (fun x => string_keyed (heap s) x = true) user_tasks ->
        exists task_list,
          list_tasks user_id page per_page s
          = (Ok {| tasks := task_list; total := length user_tasks;
                   page := page; per_page := per_page |}, s)).
Proof.
  split.
  - unfold list_tasks. rewrite bind_run. simpl.
    intros [-> | ->]; [done|].
    simpl. rewrite bind_run. simpl. rewrite bind_run.
    unfold lift, sorted_. simpl. by rewrite py_slice_nil.
  - intros user_tasks Hu Hk.
    destruct (sorted_reverse_decorated (created_at_of (heap s)) user_tasks)
      as (r & Hsort & Hperm & _).
    eexists. eapply list_tasks_run; [exact Hu|exact Hk|exact Hsort|].
    rewrite Forall_forall in *. intros x Hx. apply Hk. by rewrite <- Hperm.
Qed.

Lemma list_tasks_no_tasks_witness :
  list_tasks "nobody" 3 25 ex_three
  = (Ok {| tasks := []; total := 0; page := 3; per_page := 25 |}, ex_three)
  /\ list_tasks "u" (-1) 0 (delete_task "t1" "u"
                             (create_task "t1" (VRef 0%nat) "u" ex_empty).2).2
     = (Ok {| tasks := []; total := 0; page := -1; per_page := 0 |},
        (delete_task "t1" "u"
           (create_task "t1" (VRef 0%nat) "u" ex_empty).2).2)
  /\ (exists task_list,
        list_tasks "u" 7 2 ex_three
        = (Ok {| tasks := task_list; total := 3; page := 7; per_page := 2 |},
           ex_three)).
Proof.
  split; [|split].
  - exact (proj1 (list_tasks_no_tasks "nobody" 3 25 ex_three)
             (or_introl eq_refl)).
  - apply (proj1 (list_tasks_no_tasks "u" (-1) 0 _)). right. reflexivity.
  - apply (proj2 (list_tasks_no_tasks "u" 7 2 ex_three)
             [("t1", VRef 0%nat); ("t2", VRef 2%nat); ("t3", VRef 3%nat)]).
    + reflexivity.
    + repeat constructor.
Defined.

(** C8: [get_task_storage] returns a new in-memory store for "memory",
    which is also its default, and for any other kind raises a value error
    whose message ends with that kind. *)
Theorem get_task_storage_selects storage_type :
  get_task_storage storage_type_default = Ok InMemoryTaskStorage
  /\ get_task_storage "memory" = Ok InMemoryTaskStorage
  /\ (storage_type <> "memory" ->
      get_task_storage storage_type
      = Raise (ValueError ("Unknown storage type: " +:+ storage_type))).
Proof.
  split; [done|]. split; [done|].
  intros Hne. unfold get_task_storage.
  by apply String.eqb_neq in Hne as ->.
Qed.

Lemma get_task_storage_selects_witness :
  get_task_storage "bogus" = Raise (ValueError "Unknown storage type: bogus").
Proof.
  apply (get_task_storage_selects "bogus"). discriminate.
Defined.

(** C9: a mutator called on a pair that does not exist raises and leaves
    the whole state, the two-level mapping and every object, as it was. *)
Theorem mutators_atomic_on_failure m task_id user_id s :
  task_exists task_id user_id s = (Ok false, s) ->
  exists e, mutate m task_id user_id s = (Raise e, s).
Proof.
  intros He. apply task_exists_false in He.
  eexists. by apply mutate_not_found.
Qed.

Lemma mutators_atomic_on_failure_witness :
  exists e,
    mutate (MarkFinished "finished" ex_now) "t1" "nobody" ex_three
    = (Raise e, ex_three).
Proof.
  exact (mutators_atomic_on_failure (MarkFinished "finished" ex_now) "t1"
           "nobody" ex_three eq_refl).
Defined.

(** C10: [get_task], [task_exists], [get_task_agent] and [list_tasks] leave
    the state as it was, on every input; a user never seen stays unseen. *)
Theorem reads_leave_state_unchanged task_id user_id page per_page s :
  (get_task task_id user_id s).2 = s
  /\ (task_exists task_id user_id s).2 = s
  /\ (get_task_agent task_id user_id s).2 = s
  /\ (list_tasks user_id page per_page s).2 = s.
Proof.
  split; [apply pure_get_task|].
  split; [apply pure_task_exists|].
  split; [apply pure_get_task_agent|apply pure_list_tasks].
Qed.
